(** * The data-collector session layer of the agent (newrelic/core/data_collector.py)

    A shallow embedding of [Session], its developer-mode and serverless-mode
    subclasses and the [create_session] factory, with the properties of the
    specification proved or refuted on it.

    The session drives three collaborators that live outside the module: the
    protocol classes ([connect], [send], [close_connection]), the streaming
    RPC class ([StreamingRpc], [connect], [close]) and the attribute
    normaliser [process_user_attribute].  Calls to the first two are recorded
    in a chronological trace of events; what a call answers is given by an
    oracle that may look at the trace so far.  Python exceptions are the
    [Raise] results of an error monad. *)

From stdpp Require Import base gmap strings list pretty.
From Stdlib Require Import ZArith Lia.
From Stdlib Require Import Ascii.

Set Warnings "-register-all".


(** ** Python values *)

(** The scalars a settings object holds. *)
Inductive scalar :=
| SNone
| SBool (b : bool)
| SInt (z : Z)
| SStr (s : string).

(** The values that travel in payloads. *)
Inductive value :=
| VScalar (x : scalar)
| VTuple (items : list value)
| VList (items : list value)
| VDict (d : gmap string value).

(** [bool(x)] of a scalar. *)
Definition truthy (x : scalar) : bool :=
  match x with
  | SNone => false
  | SBool b => b
  | SInt z => negb (z =? 0)%Z
  | SStr s => negb (String.eqb s "")
  end.

(** [str(x)] of a scalar, which is what an f-string field [{x}] prints. *)
Definition format (x : scalar) : string :=
  match x with
  | SNone => "None"
  | SBool true => "True"
  | SBool false => "False"
  | SInt z => pretty z
  | SStr s => s
  end.

(** A string is the UTF-8 text of a Python [str]; it is ASCII text when every
    byte is below 128. *)
Definition is_ascii_char (c : ascii) : bool := (nat_of_ascii c <? 128)%nat.

Fixpoint is_ascii (s : string) : bool :=
  match s with
  | EmptyString => true
  | String c rest => is_ascii_char c && is_ascii rest
  end.

(** [str.lower] on ASCII text: the letters A to Z are mapped to a to z and
    every other character is kept. *)
Definition lower_ascii (c : ascii) : ascii :=
  let n := nat_of_ascii c in
  if (65 <=? n)%nat && (n <=? 90)%nat then ascii_of_nat (n + 32) else c.

Fixpoint ascii_lower (s : string) : string :=
  match s with
  | EmptyString => EmptyString
  | String c rest => String (lower_ascii c) (ascii_lower rest)
  end.

(** A named tuple is its fields in order; [_asdict] turns it into a dict. *)
Definition namedtuple : Type := list (string * value).

Definition _asdict (log : namedtuple) : value := VDict (list_to_map log).

(** ** Exceptions *)

(** Instances of [Exception]: the two the module's own expressions can raise
    on a settings value, and those raised by a collaborator. *)
Inductive exn :=
| KeyError (key : string)
| AttributeError (attribute : string)
| CollaboratorError (message : string).

Inductive result (A : Type) :=
| Return (a : A)
| Raise (e : exn).
Arguments Return {A} a.
Arguments Raise {A} e.

#[global] Instance result_ret : MRet result := fun A a => Return a.
#[global] Instance result_bind : MBind result := fun A B f m =>
  match m with
  | Return a => f a
  | Raise e => Raise e
  end.

(** ** Settings *)

(** The settings the module reads; a dotted path of the source is written
    with underscores. *)
Record Settings := {
  serverless_mode_enabled : bool;
  developer_mode : bool;
  agent_run_id : scalar;
  license_key : scalar;
  infinite_tracing_trace_observer_host : scalar;
  infinite_tracing_trace_observer_port : scalar;
  infinite_tracing_ssl : bool;
  infinite_tracing_compression : scalar;
  distributed_tracing_enabled : bool;
  span_events_enabled : bool;
  collect_span_events : bool;
  debug_connect_span_stream_in_developer_mode : bool;
  application_logging_forwarding_custom_attributes : list (value * value);
  application_logging_forwarding_labels_enabled : bool;
  application_logging_forwarding_labels_exclude : list string;
  labels : list (gmap string scalar)
}.

(** ** Collaborators and the trace of calls made to them *)

Inductive protocol_class := AgentProtocol | OtlpProtocol | ServerlessModeProtocol.
Inductive client_class := ApplicationModeClient | DeveloperModeClient | ServerlessModeClient.

(** A connected protocol object. [protocol_id] is its identity. *)
Record Protocol := {
  protocol_id : nat;
  protocol_cls : protocol_class;
  protocol_client_cls : client_class;
  protocol_configuration : Settings
}.

(** A streaming RPC object with the arguments it was constructed from.
    [rpc_id] is its identity; the span iterator and the metric recorder are
    opaque handles. *)
Record StreamingRpc := {
  rpc_id : nat;
  rpc_endpoint : string;
  rpc_span_iterator : nat;
  rpc_metadata : list (string * scalar);
  rpc_record_metric : nat;
  rpc_ssl : bool;
  rpc_compression : scalar
}.

Inductive event :=
| EvConnect (p : Protocol)
| EvConnectFailed (cls : protocol_class) (e : exn)
| EvCloseConnection (id : nat)
| EvSend (id : nat) (endpoint : string) (payload : value) (path : option string)
| EvFinalize (id : nat)
| EvRpcNew (rpc : StreamingRpc)
| EvRpcConnect (id : nat)
| EvRpcClose (id : nat).

Abbreviation trace := (list event).

(** ** The monad of the session's methods: a trace and exceptions *)

Definition M (A : Type) : Type := trace -> result A * trace.

#[global] Instance M_ret : MRet M := fun A a tr => (Return a, tr).
#[global] Instance M_bind : MBind M := fun A B f m tr =>
  match m tr with
  | (Return a, tr') => f a tr'
  | (Raise e, tr') => (Raise e, tr')
  end.

Definition emit (e : event) : M unit := fun tr => (Return tt, tr ++ [e]).

(** [StreamingRpc(endpoint, span_iterator, metadata, record_metric, ssl=, compression=)]. *)
Definition StreamingRpc_new (endpoint : string) (span_iterator : nat)
    (metadata : list (string * scalar)) (record_metric : nat) (ssl : bool)
    (compression : scalar) : M StreamingRpc := fun tr =>
  let rpc := {| rpc_id := length tr; rpc_endpoint := endpoint;
                rpc_span_iterator := span_iterator; rpc_metadata := metadata;
                rpc_record_metric := record_metric; rpc_ssl := ssl;
                rpc_compression := compression |} in
  (Return rpc, tr ++ [EvRpcNew rpc]).

Definition StreamingRpc_connect (rpc : StreamingRpc) : M unit :=
  emit (EvRpcConnect (rpc_id rpc)).

Definition StreamingRpc_close (rpc : StreamingRpc) : M unit :=
  emit (EvRpcClose (rpc_id rpc)).

Definition Protocol_close_connection (p : Protocol) : M unit :=
  emit (EvCloseConnection (protocol_id p)).

(** ** The session classes *)

Inductive session_class :=
| ClsSession
| ClsDeveloperModeSession
| ClsServerlessModeSession.

(** The class attributes, with the two subclasses' overrides. *)
Definition PROTOCOL (cls : session_class) : protocol_class :=
  match cls with
  | ClsServerlessModeSession => ServerlessModeProtocol
  | _ => AgentProtocol
  end.

Definition OTLP_PROTOCOL (cls : session_class) : protocol_class := OtlpProtocol.

Definition CLIENT (cls : session_class) : client_class :=
  match cls with
  | ClsSession => ApplicationModeClient
  | ClsDeveloperModeSession => DeveloperModeClient
  | ClsServerlessModeSession => ServerlessModeClient
  end.

(** A session object: its class and its three attributes.  A stored
    [StreamingRpc] object is true in a condition, [None] is false. *)
Record Session := {
  session_cls : session_class;
  _protocol : Protocol;
  _otlp_protocol : Protocol;
  _rpc : option StreamingRpc
}.

(** The property [configuration]. *)
Definition configuration (self : Session) : Settings :=
  protocol_configuration (_protocol self).

(** The assignment [self._rpc = rpc]. *)
Definition set_rpc (rpc : StreamingRpc) (self : Session) : Session :=
  {| session_cls := session_cls self; _protocol := _protocol self;
     _otlp_protocol := _otlp_protocol self; _rpc := Some rpc |}.

(** The host replacing the configuration the primary protocol exposes. *)
Definition set_configuration (cfg : Settings) (self : Session) : Session :=
  {| session_cls := session_cls self;
     _protocol := {| protocol_id := protocol_id (_protocol self);
                     protocol_cls := protocol_cls (_protocol self);
                     protocol_client_cls := protocol_client_cls (_protocol self);
                     protocol_configuration := cfg |};
     _otlp_protocol := _otlp_protocol self; _rpc := _rpc self |}.

(** ** Sample collaborators, used to run the methods *)

(** Every connect answers the settings it was given. *)
Definition sample_connect_outcome (tr : trace) (cls : protocol_class)
    (client_cls : client_class) (app_name : string)
    (linked_applications : list string) (environment : value)
    (settings : Settings) : result Settings :=
  Return settings.

(** The OTLP connect raises, the others answer. *)
Definition otlp_failing_connect_outcome (tr : trace) (cls : protocol_class)
    (client_cls : client_class) (app_name : string)
    (linked_applications : list string) (environment : value)
    (settings : Settings) : result Settings :=
  match cls with
  | OtlpProtocol => Raise (CollaboratorError "otlp connect failed")
  | _ => Return settings
  end.

(** Every send answers [None]. *)
Definition sample_send_outcome (tr : trace) (p : Protocol) (endpoint : string)
    (payload : value) (path : option string) : result value :=
  Return (VScalar SNone).

(** A normaliser that accepts the attributes named by a string. *)
Definition sample_process_user_attribute (name val : value)
    : result (option string * value) :=
  match name with
  | VScalar (SStr key) => Return (Some key, val)
  | _ => Return (None, VScalar SNone)
  end.

(** Encoders that wrap their arguments, and a [finalize] that answers [None]. *)
Definition sample_encode_ml_event_data (events : value) (run_id : string) : value :=
  VTuple [VScalar (SStr run_id); events].

Definition sample_encode_metric_data (metrics start_time end_time : value) : value :=
  VTuple [metrics; start_time; end_time].

Definition sample_finalize_outcome (tr : trace) (p : Protocol) : result value :=
  Return (VScalar SNone).

(** A stand-in for [str.lower] on text that is not ASCII. *)
Definition sample_unicode_lower (s : string) : string := s.

(** A normaliser that raises on every attribute. *)
Definition failing_process_user_attribute (name val : value)
    : result (option string * value) :=
  Raise (CollaboratorError "attribute rejected").

(** The primary connect raises. *)
Definition primary_failing_connect_outcome (tr : trace) (cls : protocol_class)
    (client_cls : client_class) (app_name : string)
    (linked_applications : list string) (environment : value)
    (settings : Settings) : result Settings :=
  match cls with
  | OtlpProtocol => Return settings
  | _ => Raise (CollaboratorError "connect failed")
  end.

Section DataCollector.

(** What [PROTOCOL.connect] answers: the configuration of the connected
    protocol, or an exception. *)
Variable connect_outcome :
  trace -> protocol_class -> client_class -> string -> list string -> value ->
  Settings -> result Settings.

(** What [send] answers on a connected protocol. *)
Variable send_outcome :
  trace -> Protocol -> string -> value -> option string -> result value.

(** The attribute normaliser and the bound of newrelic.core.attribute. *)
Variable process_user_attribute : value -> value -> result (option string * value).
Variable MAX_NUM_USER_ATTRIBUTES : nat.

(** What the builtin [str.lower] answers on text that is not ASCII. *)
Variable unicode_lower : string -> string.

(** [str.lower]: the fold of A to Z on ASCII text, the builtin's own answer
    on any other text. *)
Definition lower (s : string) : string :=
  if is_ascii s then ascii_lower s else unicode_lower s.

Definition Protocol_connect (cls : protocol_class) (app_name : string)
    (linked_applications : list string) (environment : value)
    (settings : Settings) (client_cls : client_class) : M Protocol := fun tr =>
  match connect_outcome tr cls client_cls app_name linked_applications
          environment settings with
  | Return cfg =>
      let p := {| protocol_id := length tr; protocol_cls := cls;
                  protocol_client_cls := client_cls;
                  protocol_configuration := cfg |} in
      (Return p, tr ++ [EvConnect p])
  | Raise e => (Raise e, tr ++ [EvConnectFailed cls e])
  end.

Definition Protocol_send (p : Protocol) (endpoint : string) (payload : value)
    (path : option string) : M value := fun tr =>
  (send_outcome tr p endpoint payload path,
   tr ++ [EvSend (protocol_id p) endpoint payload path]).

(** [Session.__init__], run for an object of class [cls]. *)
Definition Session__init__ (cls : session_class) (app_name : string)
    (linked_applications : list string) (environment : value)
    (settings : Settings) : M Session :=
  protocol ← Protocol_connect (PROTOCOL cls) app_name linked_applications
               environment settings (CLIENT cls);
  otlp_protocol ← Protocol_connect (OTLP_PROTOCOL cls) app_name
                    linked_applications environment settings (CLIENT cls);
  mret {| session_cls := cls; _protocol := protocol;
          _otlp_protocol := otlp_protocol; _rpc := None |}.

Definition close_connection (self : Session) : M unit :=
  Protocol_close_connection (_protocol self).

(** [Session.connect_span_stream]: the result is the returned value and the
    session after the call. *)
Definition Session_connect_span_stream (self : Session) (span_iterator : nat)
    (record_metric : nat) : M (option StreamingRpc * Session) :=
  if negb (bool_decide (is_Some (_rpc self))) then
    let host := infinite_tracing_trace_observer_host (configuration self) in
    if negb (truthy host) then mret (None, self)
    else
      let port := infinite_tracing_trace_observer_port (configuration self) in
      let ssl := infinite_tracing_ssl (configuration self) in
      let compression_setting := infinite_tracing_compression (configuration self) in
      let endpoint := format host +:+ ":" +:+ format port in
      if distributed_tracing_enabled (configuration self)
         && span_events_enabled (configuration self)
         && collect_span_events (configuration self)
      then
        let metadata := [("agent_run_token", agent_run_id (configuration self));
                         ("license_key", license_key (configuration self))] in
        rpc ← StreamingRpc_new endpoint span_iterator metadata record_metric
                ssl compression_setting;
        let self := set_rpc rpc self in
        _ ← StreamingRpc_connect rpc;
        mret (Some rpc, self)
      else mret (None, self)
  else mret (None, self).

(** [DeveloperModeSession.connect_span_stream]: the call to the base method
    is a statement, its value is not returned. *)
Definition DeveloperModeSession_connect_span_stream (self : Session)
    (span_iterator : nat) (record_metric : nat) : M (option StreamingRpc * Session) :=
  if debug_connect_span_stream_in_developer_mode (configuration self) then
    '(_, self) ← Session_connect_span_stream self span_iterator record_metric;
    mret (None, self)
  else mret (None, self).

(** [ServerlessModeSession.connect_span_stream]: [pass]. *)
Definition ServerlessModeSession_connect_span_stream (self : Session)
    (span_iterator : nat) (record_metric : nat) : M (option StreamingRpc * Session) :=
  mret (None, self).

(** Method resolution of [self.connect_span_stream(...)]. *)
Definition connect_span_stream (self : Session) (span_iterator : nat)
    (record_metric : nat) : M (option StreamingRpc * Session) :=
  match session_cls self with
  | ClsSession => Session_connect_span_stream self span_iterator record_metric
  | ClsDeveloperModeSession =>
      DeveloperModeSession_connect_span_stream self span_iterator record_metric
  | ClsServerlessModeSession =>
      ServerlessModeSession_connect_span_stream self span_iterator record_metric
  end.

Definition shutdown_span_stream (self : Session) : M unit :=
  match _rpc self with
  | Some rpc => StreamingRpc_close rpc
  | None => mret tt
  end.

(** [send_transaction_traces]: the traces are a list; [None] is [SNone]. *)
Definition send_transaction_traces (self : Session)
    (transaction_traces : list value) : M value :=
  match transaction_traces with
  | [] => mret (VScalar SNone)
  | _ =>
      let payload := VTuple [VScalar (agent_run_id (configuration self));
                             VList transaction_traces] in
      Protocol_send (_protocol self) "transaction_sample_data" payload None
  end.

Definition send_transaction_events (self : Session) (sampling_info : value)
    (sample_set : value) : M value :=
  let payload := VTuple [VScalar (agent_run_id (configuration self));
                         sampling_info; sample_set] in
  Protocol_send (_protocol self) "analytic_event_data" payload None.

(** *** The common block of log events *)

(** [d[key]] on a dict. *)
Definition getitem (d : gmap string scalar) (key : string) : result scalar :=
  match d !! key with
  | Some x => Return x
  | None => Raise (KeyError key)
  end.

(** [x.lower()]: a method of strings only. *)
Definition str_lower (x : scalar) : result string :=
  match x with
  | SStr s => Return (lower s)
  | _ => Raise (AttributeError "lower")
  end.

(** [common.update(other)]: the entries of [other] win. *)
Definition dict_update (common other : gmap string value) : gmap string value :=
  other ∪ common.

(** The loop over the configured custom attributes, from the dict
    [custom_attributes] built so far; it breaks at the bound. *)
Fixpoint process_custom_attributes (attributes : list (value * value))
    (custom_attributes : gmap string value) : result (gmap string value) :=
  match attributes with
  | [] => Return custom_attributes
  | (attr_name, attr_value) :: rest =>
      if (MAX_NUM_USER_ATTRIBUTES <=? size custom_attributes)%nat
      then Return custom_attributes
      else
        '(key, val) ← process_user_attribute attr_name attr_value;
        match key with
        | Some key => process_custom_attributes rest (<[key := val]> custom_attributes)
        | None => process_custom_attributes rest custom_attributes
        end
  end.

(** The dict comprehension over every label, from the dict built so far. *)
Fixpoint label_tags (labels : list (gmap string scalar))
    (tags : gmap string value) : result (gmap string value) :=
  match labels with
  | [] => Return tags
  | label :: rest =>
      label_type ← getitem label "label_type";
      label_value ← getitem label "label_value";
      label_tags rest (<["tags." +:+ format label_type := VScalar label_value]> tags)
  end.

(** The dict comprehension with the condition on the exclusion list. *)
Fixpoint label_tags_excluding (exclude : list string)
    (labels : list (gmap string scalar)) (tags : gmap string value)
    : result (gmap string value) :=
  match labels with
  | [] => Return tags
  | label :: rest =>
      tested ← getitem label "label_type";
      lowered ← str_lower tested;
      if bool_decide (lowered ∈ exclude) then label_tags_excluding exclude rest tags
      else
        label_type ← getitem label "label_type";
        label_value ← getitem label "label_value";
        label_tags_excluding exclude rest
          (<["tags." +:+ format label_type := VScalar label_value]> tags)
  end.

(** The block the method guards with [try]. *)
Definition common_block_try (cfg : Settings) : result (gmap string value) :=
  let common : gmap string value := ∅ in
  common ←
    match application_logging_forwarding_custom_attributes cfg with
    | [] => Return common
    | attributes =>
        custom_attributes ← process_custom_attributes attributes ∅;
        Return (dict_update common custom_attributes)
    end;
  match labels cfg with
  | [] => Return common
  | labels =>
      if negb (application_logging_forwarding_labels_enabled cfg) then Return common
      else
        match application_logging_forwarding_labels_exclude cfg with
        | [] =>
            tags ← label_tags labels ∅;
            Return (dict_update common tags)
        | exclude =>
            tags ← label_tags_excluding exclude labels ∅;
            Return (dict_update common tags)
        end
  end.

(** [get_log_events_common_block]: the handler of [except Exception] returns
    a new empty dict; the messages to the logger are not modelled. *)
Definition get_log_events_common_block (self : Session) : gmap string value :=
  match common_block_try (configuration self) with
  | Return common => common
  | Raise _ => ∅
  end.

Definition send_log_events (self : Session) (sampling_info : value)
    (log_event_data : list namedtuple) : M value :=
  let payload0 : gmap string value :=
    {["logs" := VTuple (_asdict <$> log_event_data)]} in
  let common := get_log_events_common_block self in
  let payload0 :=
    if bool_decide (common = ∅) then payload0
    else <["common" := VDict {["attributes" := VDict common]}]> payload0 in
  Protocol_send (_protocol self) "log_event_data" (VTuple [VDict payload0]) None.

(** [get_agent_commands] and [shutdown_session], with the serverless
    overrides. *)
Definition get_agent_commands (self : Session) : M value :=
  match session_cls self with
  | ClsServerlessModeSession => mret (VTuple [])
  | _ =>
      Protocol_send (_protocol self) "get_agent_commands"
        (VTuple [VScalar (agent_run_id (configuration self))]) None
  end.

Definition shutdown_session (self : Session) : M value :=
  match session_cls self with
  | ClsServerlessModeSession => mret (VScalar SNone)
  | _ =>
      Protocol_send (_protocol self) "shutdown"
        (VTuple [VScalar (agent_run_id (configuration self))]) None
  end.

(** ** The other submission methods *)

(** The encoders of newrelic.core.otlp_utils and what [finalize] answers on a
    protocol. *)
Variable encode_ml_event_data : value -> string -> value.
Variable encode_metric_data : value -> value -> value -> value.
Variable finalize_outcome : trace -> Protocol -> result value.

Definition Protocol_finalize (p : Protocol) : M value := fun tr =>
  (finalize_outcome tr p, tr ++ [EvFinalize (protocol_id p)]).

Definition send_custom_events (self : Session) (sampling_info : value)
    (custom_event_data : value) : M value :=
  let payload := VTuple [VScalar (agent_run_id (configuration self));
                         sampling_info; custom_event_data] in
  Protocol_send (_protocol self) "custom_event_data" payload None.

Definition send_ml_events (self : Session) (sampling_info : value)
    (custom_event_data : value) : M value :=
  let payload := encode_ml_event_data custom_event_data
                   (format (agent_run_id (configuration self))) in
  Protocol_send (_otlp_protocol self) "ml_event_data" payload (Some "/v1/logs").

Definition send_span_events (self : Session) (sampling_info : value)
    (span_event_data : value) : M value :=
  let payload := VTuple [VScalar (agent_run_id (configuration self));
                         sampling_info; span_event_data] in
  Protocol_send (_protocol self) "span_event_data" payload None.

Definition send_metric_data (self : Session) (start_time end_time : value)
    (metric_data : value) : M value :=
  let payload := VTuple [VScalar (agent_run_id (configuration self));
                         start_time; end_time; metric_data] in
  Protocol_send (_protocol self) "metric_data" payload None.

Definition send_dimensional_metric_data (self : Session)
    (start_time end_time : value) (metric_data : value) : M value :=
  let payload := encode_metric_data metric_data start_time end_time in
  Protocol_send (_otlp_protocol self) "dimensional_metric_data" payload
    (Some "/v1/metrics").

Definition send_errors (self : Session) (errors : value) : M value :=
  let payload := VTuple [VScalar (agent_run_id (configuration self)); errors] in
  Protocol_send (_protocol self) "error_data" payload None.

Definition send_error_events (self : Session) (sampling_info : value)
    (error_data : value) : M value :=
  let payload := VTuple [VScalar (agent_run_id (configuration self));
                         sampling_info; error_data] in
  Protocol_send (_protocol self) "error_event_data" payload None.

Definition send_sql_traces (self : Session) (sql_traces : value) : M value :=
  let payload := VTuple [sql_traces] in
  Protocol_send (_protocol self) "sql_trace_data" payload None.

Definition send_agent_command_results (self : Session) (cmd_results : value)
    : M value :=
  let payload := VTuple [VScalar (agent_run_id (configuration self)); cmd_results] in
  Protocol_send (_protocol self) "agent_command_results" payload None.

Definition send_profile_data (self : Session) (profile_data : value) : M value :=
  let payload := VTuple [VScalar (agent_run_id (configuration self)); profile_data] in
  Protocol_send (_protocol self) "profile_data" payload None.

Definition send_loaded_modules (self : Session) (environment_info : value)
    : M value :=
  let payload := VTuple [VScalar (SStr "Jars"); environment_info] in
  Protocol_send (_protocol self) "update_loaded_modules" payload None.

Definition finalize (self : Session) : M value :=
  Protocol_finalize (_protocol self).

(** A call of one of the methods that submit data or ask the collector. *)
Inductive request :=
| ReqTransactionTraces (transaction_traces : list value)
| ReqTransactionEvents (sampling_info sample_set : value)
| ReqCustomEvents (sampling_info custom_event_data : value)
| ReqMlEvents (sampling_info custom_event_data : value)
| ReqSpanEvents (sampling_info span_event_data : value)
| ReqMetricData (start_time end_time metric_data : value)
| ReqDimensionalMetricData (start_time end_time metric_data : value)
| ReqLogEvents (sampling_info : value) (log_event_data : list namedtuple)
| ReqGetAgentCommands
| ReqErrors (errors : value)
| ReqErrorEvents (sampling_info error_data : value)
| ReqSqlTraces (sql_traces : value)
| ReqAgentCommandResults (cmd_results : value)
| ReqProfileData (profile_data : value)
| ReqLoadedModules (environment_info : value)
| ReqShutdownSession.

Definition perform (req : request) (self : Session) : M value :=
  match req with
  | ReqTransactionTraces traces => send_transaction_traces self traces
  | ReqTransactionEvents info sample_set => send_transaction_events self info sample_set
  | ReqCustomEvents info events => send_custom_events self info events
  | ReqMlEvents info events => send_ml_events self info events
  | ReqSpanEvents info events => send_span_events self info events
  | ReqMetricData start_time end_time metrics =>
      send_metric_data self start_time end_time metrics
  | ReqDimensionalMetricData start_time end_time metrics =>
      send_dimensional_metric_data self start_time end_time metrics
  | ReqLogEvents info logs => send_log_events self info logs
  | ReqGetAgentCommands => get_agent_commands self
  | ReqErrors errors => send_errors self errors
  | ReqErrorEvents info errors => send_error_events self info errors
  | ReqSqlTraces sql_traces => send_sql_traces self sql_traces
  | ReqAgentCommandResults results => send_agent_command_results self results
  | ReqProfileData profile => send_profile_data self profile
  | ReqLoadedModules info => send_loaded_modules self info
  | ReqShutdownSession => shutdown_session self
  end.

(** ** The factory *)

(** [create_session]; [global_settings] is what the call [global_settings()]
    answers. *)
Definition create_session (global_settings : Settings) (license_key : scalar)
    (app_name : string) (linked_applications : list string)
    (environment : value) : M Session :=
  let settings := global_settings in
  if serverless_mode_enabled settings then
    Session__init__ ClsServerlessModeSession app_name linked_applications
      environment settings
  else if developer_mode settings then
    Session__init__ ClsDeveloperModeSession app_name linked_applications
      environment settings
  else
    Session__init__ ClsSession app_name linked_applications environment settings.

(** ** The host's calls on one session *)

Inductive call :=
| CallConnectSpanStream (span_iterator record_metric : nat)
| CallShutdownSpanStream
| CallSetConfiguration (cfg : Settings)
| CallSendTransactionTraces (transaction_traces : list value)
| CallSendLogEvents (sampling_info : value) (log_event_data : list namedtuple)
| CallGetAgentCommands
| CallShutdownSession
| CallCloseConnection.

(** One call: the session and the trace after it, its value dropped. *)
Definition run_call (c : call) (self : Session) (tr : trace) : Session * trace :=
  match c with
  | CallConnectSpanStream span_iterator record_metric =>
      match connect_span_stream self span_iterator record_metric tr with
      | (Return (_, self'), tr') => (self', tr')
      | (Raise _, tr') => (self, tr')
      end
  | CallShutdownSpanStream => (self, (shutdown_span_stream self tr).2)
  | CallSetConfiguration cfg => (set_configuration cfg self, tr)
  | CallSendTransactionTraces traces => (self, (send_transaction_traces self traces tr).2)
  | CallSendLogEvents info logs => (self, (send_log_events self info logs tr).2)
  | CallGetAgentCommands => (self, (get_agent_commands self tr).2)
  | CallShutdownSession => (self, (shutdown_session self tr).2)
  | CallCloseConnection => (self, (close_connection self tr).2)
  end.

Fixpoint run_calls (calls : list call) (self : Session) (tr : trace) : Session * trace :=
  match calls with
  | [] => (self, tr)
  | c :: rest => let '(self', tr') := run_call c self tr in run_calls rest self' tr'
  end.

(** A call of any method of a session, or a change of its configuration. *)
Inductive action :=
| ActConnectSpanStream (span_iterator record_metric : nat)
| ActShutdownSpanStream
| ActSetConfiguration (cfg : Settings)
| ActCloseConnection
| ActFinalize
| ActPerform (req : request).

Definition run_action (a : action) (self : Session) (tr : trace) : Session * trace :=
  match a with
  | ActConnectSpanStream span_iterator record_metric =>
      match connect_span_stream self span_iterator record_metric tr with
      | (Return (_, self'), tr') => (self', tr')
      | (Raise _, tr') => (self, tr')
      end
  | ActShutdownSpanStream => (self, (shutdown_span_stream self tr).2)
  | ActSetConfiguration cfg => (set_configuration cfg self, tr)
  | ActCloseConnection => (self, (close_connection self tr).2)
  | ActFinalize => (self, (finalize self tr).2)
  | ActPerform req => (self, (perform req self tr).2)
  end.

Fixpoint run_actions (actions : list action) (self : Session) (tr : trace)
    : Session * trace :=
  match actions with
  | [] => (self, tr)
  | a :: rest => let '(self', tr') := run_action a self tr in run_actions rest self' tr'
  end.

(** The number of [StreamingRpc] objects constructed in a trace. *)
Definition is_rpc_new (e : event) : bool :=
  match e with EvRpcNew _ => true | _ => false end.

Definition channels_created (tr : trace) : nat := length (filter is_rpc_new tr).

(** The protocols connected and not closed in a trace. *)
Definition open_after (open : list nat) (e : event) : list nat :=
  match e with
  | EvConnect p => open ++ [protocol_id p]
  | EvCloseConnection id => filter (fun i => i ≠ id) open
  | _ => open
  end.

Definition open_connections (tr : trace) : list nat := foldl open_after [] tr.

(** ** Notions the properties are stated with *)

(** The configuration under which the base method opens a channel. *)
Definition span_stream_enabled (cfg : Settings) : bool :=
  truthy (infinite_tracing_trace_observer_host cfg)
  && distributed_tracing_enabled cfg
  && span_events_enabled cfg
  && collect_span_events cfg.

(** The channel the base method constructs at trace [tr]. *)
Definition new_channel (cfg : Settings) (span_iterator record_metric : nat)
    (tr : trace) : StreamingRpc :=
  {| rpc_id := length tr;
     rpc_endpoint := format (infinite_tracing_trace_observer_host cfg) +:+ ":"
                     +:+ format (infinite_tracing_trace_observer_port cfg);
     rpc_span_iterator := span_iterator;
     rpc_metadata := [("agent_run_token", agent_run_id cfg);
                      ("license_key", license_key cfg)];
     rpc_record_metric := record_metric;
     rpc_ssl := infinite_tracing_ssl cfg;
     rpc_compression := infinite_tracing_compression cfg |}.

(** What remains of the one channel a session may still construct. *)
Definition channel_budget (self : Session) : nat :=
  match _rpc self with
  | Some _ => 0
  | None => 1
  end.

(** A label as the settings hold it: a dict with a string type and a value. *)
Definition make_label (label : string * scalar) : gmap string scalar :=
  {["label_type" := SStr label.1; "label_value" := label.2]}.

(** What one label of type [label.1] adds to the tags under the exclusion
    list [exclude]. *)
Definition add_tag (exclude : list string) (tags : gmap string value)
    (label : string * scalar) : gmap string value :=
  if bool_decide (lower label.1 ∈ exclude) then tags
  else <["tags." +:+ label.1 := VScalar label.2]> tags.

(** Two label types that differ in letter case only. *)
Definition same_ignoring_case (a b : string) : Prop := lower a = lower b.

(** The endpoints of the sends recorded in a trace, in order. *)
Definition endpoint_of (e : event) : list string :=
  match e with
  | EvSend _ endpoint _ _ => [endpoint]
  | _ => []
  end.

Definition endpoints_sent (tr : trace) : list string := tr ≫= endpoint_of.

(** A call by the host that does not set the developer-mode debug flag. *)
Definition keeps_debug_flag_off (c : call) : bool :=
  match c with
  | CallSetConfiguration cfg => negb (debug_connect_span_stream_in_developer_mode cfg)
  | _ => true
  end.

(** ** Sample objects, used to run the methods *)

Definition sample_settings_with (serverless developer : bool) (host : scalar)
    (custom_attributes : list (value * value)) (exclude : list string)
    (labels : list (gmap string scalar)) : Settings :=
  {| serverless_mode_enabled := serverless;
     developer_mode := developer;
     agent_run_id := SStr "run-1";
     license_key := SStr "license";
     infinite_tracing_trace_observer_host := host;
     infinite_tracing_trace_observer_port := SInt 443;
     infinite_tracing_ssl := true;
     infinite_tracing_compression := SBool true;
     distributed_tracing_enabled := true;
     span_events_enabled := true;
     collect_span_events := true;
     debug_connect_span_stream_in_developer_mode := true;
     application_logging_forwarding_custom_attributes := custom_attributes;
     application_logging_forwarding_labels_enabled := true;
     application_logging_forwarding_labels_exclude := exclude;
     labels := labels |}.

Definition sample_settings : Settings :=
  sample_settings_with false false (SStr "observer.example") [] [] [].

(** The settings [cfg] with the developer-mode debug flag set to [flag]. *)
Definition with_debug_flag (flag : bool) (cfg : Settings) : Settings :=
  {| serverless_mode_enabled := serverless_mode_enabled cfg;
     developer_mode := developer_mode cfg;
     agent_run_id := agent_run_id cfg;
     license_key := license_key cfg;
     infinite_tracing_trace_observer_host := infinite_tracing_trace_observer_host cfg;
     infinite_tracing_trace_observer_port := infinite_tracing_trace_observer_port cfg;
     infinite_tracing_ssl := infinite_tracing_ssl cfg;
     infinite_tracing_compression := infinite_tracing_compression cfg;
     distributed_tracing_enabled := distributed_tracing_enabled cfg;
     span_events_enabled := span_events_enabled cfg;
     collect_span_events := collect_span_events cfg;
     debug_connect_span_stream_in_developer_mode := flag;
     application_logging_forwarding_custom_attributes :=
       application_logging_forwarding_custom_attributes cfg;
     application_logging_forwarding_labels_enabled :=
       application_logging_forwarding_labels_enabled cfg;
     application_logging_forwarding_labels_exclude :=
       application_logging_forwarding_labels_exclude cfg;
     labels := labels cfg |}.

(** Settings with one custom attribute and two labels of the same type. *)
Definition tagged_settings : Settings :=
  sample_settings_with false false SNone
    [(VScalar (SStr "team"), VScalar (SStr "core"))] ["team"]
    (make_label <$> [("env", SStr "prod"); ("env", SStr "staging")]).

(** Settings with one custom attribute and a label that has no value. *)
Definition faulty_settings : Settings :=
  sample_settings_with false false SNone
    [(VScalar (SStr "team"), VScalar (SStr "core"))] []
    [{["label_type" := SStr "env"]}].

(** A session of class [cls] as [__init__] leaves it on an empty trace when
    both protocols answer [cfg]. *)
Definition sample_session (cls : session_class) (cfg : Settings) : Session :=
  {| session_cls := cls;
     _protocol := {| protocol_id := 0; protocol_cls := PROTOCOL cls;
                     protocol_client_cls := CLIENT cls;
                     protocol_configuration := cfg |};
     _otlp_protocol := {| protocol_id := 1; protocol_cls := OTLP_PROTOCOL cls;
                          protocol_client_cls := CLIENT cls;
                          protocol_configuration := cfg |};
     _rpc := None |}.

(** * Properties *)

Ltac unfold_M :=
  unfold mbind, mret, M_bind, M_ret, result_bind, result_ret, emit,
    StreamingRpc_connect, StreamingRpc_close, StreamingRpc_new,
    Protocol_close_connection, Protocol_send in *.

Lemma channels_created_app (tr1 tr2 : trace) :
  channels_created (tr1 ++ tr2) = channels_created tr1 + channels_created tr2.
Proof. unfold channels_created. by rewrite filter_app, length_app. Qed.

Lemma channels_created_cons (e : event) (tr : trace) :
  channels_created (e :: tr) = (if is_rpc_new e then 1 else 0) + channels_created tr.
Proof.
  unfold channels_created. rewrite filter_cons.
  destruct (is_rpc_new e); by case_decide.
Qed.

Lemma open_connections_app (tr1 tr2 : trace) :
  open_connections (tr1 ++ tr2) = foldl open_after (open_connections tr1) tr2.
Proof. unfold open_connections. by rewrite foldl_app. Qed.

(** ** Construction *)

Lemma Session__init__outcome cls app_name linked_applications environment settings tr :
  match Session__init__ cls app_name linked_applications environment settings tr with
  | (Return self, tr') =>
      session_cls self = cls ∧ _rpc self = None ∧
      tr' = tr ++ [EvConnect (_protocol self); EvConnect (_otlp_protocol self)]
  | (Raise e, tr') =>
      tr' = tr ++ [EvConnectFailed (PROTOCOL cls) e] ∨
      ∃ p, tr' = tr ++ [EvConnect p; EvConnectFailed (OTLP_PROTOCOL cls) e]
  end.
Proof.
  unfold Session__init__, Protocol_connect. unfold_M.
  destruct (connect_outcome tr _ _ _ _ _ _) as [cfg|e]; [|by left].
  destruct (connect_outcome (tr ++ _) _ _ _ _ _ _) as [cfg'|e]; simpl.
  - by rewrite <- app_assoc.
  - right. eexists. by rewrite <- app_assoc.
Qed.

(** C1. [create_session] builds the serverless-mode session whenever
    serverless mode is enabled, whatever the developer-mode flag; the
    developer-mode session when developer mode is enabled and serverless mode
    is not; the default session otherwise.  A call produces one outcome: a
    session of the class selected, or the exception of the connect that
    failed. *)
Theorem create_session_selects_variant gs license_key app_name linked_applications
    environment tr :
  let constructs cls :=
    create_session gs license_key app_name linked_applications environment tr =
    Session__init__ cls app_name linked_applications environment gs tr in
  (serverless_mode_enabled gs = true → constructs ClsServerlessModeSession) ∧
  (serverless_mode_enabled gs = false → developer_mode gs = true →
   constructs ClsDeveloperModeSession) ∧
  (serverless_mode_enabled gs = false → developer_mode gs = false →
   constructs ClsSession) ∧
  match create_session gs license_key app_name linked_applications environment tr with
  | (Return self, tr') =>
      session_cls self =
        (if serverless_mode_enabled gs then ClsServerlessModeSession
         else if developer_mode gs then ClsDeveloperModeSession else ClsSession) ∧
      channels_created tr' = channels_created tr
  | (Raise e, tr') => ∃ cls p, tr' = tr ++ p ++ [EvConnectFailed cls e]
  end.
Proof.
  unfold create_session; simpl.
  repeat split; try (by intros ->; try intros ->).
  pose proof (fun cls =>
    Session__init__outcome cls app_name linked_applications environment gs tr) as Hinit.
  destruct (serverless_mode_enabled gs); [|destruct (developer_mode gs)];
    match goal with
    | |- context [Session__init__ ?cls] => specialize (Hinit cls)
    end;
    destruct (Session__init__ _ _ _ _ _ _) as [[self|e] tr'];
    try (destruct Hinit as (-> & _ & ->); split; [done|];
         rewrite channels_created_app, !channels_created_cons; simpl;
         unfold channels_created; simpl; lia);
    try (destruct Hinit as [->|[p ->]];
         [by eexists _, [] | by eexists _, [EvConnect p]]).
Qed.

(** ** The span stream *)

Lemma Session_connect_span_stream_stored self rpc span_iterator record_metric tr :
  _rpc self = Some rpc →
  Session_connect_span_stream self span_iterator record_metric tr =
    (Return (None, self), tr).
Proof. unfold Session_connect_span_stream. by intros ->. Qed.

Lemma Session_connect_span_stream_disabled self span_iterator record_metric tr :
  span_stream_enabled (configuration self) = false →
  Session_connect_span_stream self span_iterator record_metric tr =
    (Return (None, self), tr).
Proof.
  unfold Session_connect_span_stream, span_stream_enabled. intros H.
  destruct (bool_decide _); simpl; [done|].
  destruct (truthy _); simpl in *; [|done].
  by rewrite H.
Qed.

Lemma Session_connect_span_stream_creates self span_iterator record_metric tr :
  _rpc self = None →
  span_stream_enabled (configuration self) = true →
  let rpc := new_channel (configuration self) span_iterator record_metric tr in
  Session_connect_span_stream self span_iterator record_metric tr =
    (Return (Some rpc, set_rpc rpc self),
     tr ++ [EvRpcNew rpc; EvRpcConnect (rpc_id rpc)]).
Proof.
  unfold Session_connect_span_stream, span_stream_enabled. intros -> H.
  apply andb_prop in H as [H Hc]. apply andb_prop in H as [H Hs].
  apply andb_prop in H as [Hh Hd]. simpl.
  rewrite Hh, Hd, Hs, Hc. simpl. unfold_M. simpl.
  by rewrite <- app_assoc.
Qed.

(** Every variant leaves a session with a stored channel alone. *)
Lemma connect_span_stream_stored self rpc span_iterator record_metric tr :
  _rpc self = Some rpc →
  connect_span_stream self span_iterator record_metric tr = (Return (None, self), tr).
Proof.
  intros H. unfold connect_span_stream, DeveloperModeSession_connect_span_stream,
    ServerlessModeSession_connect_span_stream.
  destruct (session_cls self); [| |done].
  - by eapply Session_connect_span_stream_stored.
  - destruct (debug_connect_span_stream_in_developer_mode _); [|done].
    unfold mbind, M_bind.
    by erewrite Session_connect_span_stream_stored.
Qed.

Lemma connect_span_stream_disabled self span_iterator record_metric tr :
  span_stream_enabled (configuration self) = false →
  connect_span_stream self span_iterator record_metric tr = (Return (None, self), tr).
Proof.
  intros H. unfold connect_span_stream, DeveloperModeSession_connect_span_stream,
    ServerlessModeSession_connect_span_stream.
  destruct (session_cls self); [| |done].
  - by apply Session_connect_span_stream_disabled.
  - destruct (debug_connect_span_stream_in_developer_mode _); [|done].
    unfold mbind, M_bind.
    by rewrite Session_connect_span_stream_disabled.
Qed.

Lemma connect_span_stream_outcome self span_iterator record_metric tr :
  connect_span_stream self span_iterator record_metric tr = (Return (None, self), tr) ∨
  (_rpc self = None ∧
   let rpc := new_channel (configuration self) span_iterator record_metric tr in
   ∃ returned, connect_span_stream self span_iterator record_metric tr =
     (Return (returned, set_rpc rpc self),
      tr ++ [EvRpcNew rpc; EvRpcConnect (rpc_id rpc)])).
Proof.
  destruct (_rpc self) as [rpc|] eqn:Hrpc.
  { left. by eapply connect_span_stream_stored. }
  destruct (span_stream_enabled (configuration self)) eqn:Hen.
  2: { left. by apply connect_span_stream_disabled. }
  unfold connect_span_stream, DeveloperModeSession_connect_span_stream,
    ServerlessModeSession_connect_span_stream.
  destruct (session_cls self); [| |by left].
  - right. split; [done|]. eexists.
    by apply Session_connect_span_stream_creates.
  - destruct (debug_connect_span_stream_in_developer_mode _); [|by left].
    right. split; [done|]. eexists. unfold mbind, M_bind.
    by rewrite Session_connect_span_stream_creates.
Qed.

Ltac count_channels :=
  unfold_M; simpl;
  rewrite ?channels_created_app, ?channels_created_cons; simpl;
  unfold channels_created; simpl; lia.

Lemma run_call_budget c self tr :
  channels_created (run_call c self tr).2 + channel_budget (run_call c self tr).1
    ≤ channels_created tr + channel_budget self ∧
  ∀ rpc, _rpc self = Some rpc → _rpc (run_call c self tr).1 = Some rpc.
Proof.
  destruct c as [span_iterator record_metric| |cfg|traces|info logs| | |]; simpl.
  - destruct (connect_span_stream_outcome self span_iterator record_metric tr)
      as [->|[Hnone [returned ->]]]; simpl; [done|].
    split; [|by rewrite Hnone].
    unfold channel_budget. rewrite Hnone. count_channels.
  - split; [|done]. unfold shutdown_span_stream.
    destruct (_rpc self); count_channels.
  - done.
  - split; [|done]. unfold send_transaction_traces.
    destruct traces; count_channels.
  - split; [|done]. unfold send_log_events. count_channels.
  - split; [|done]. unfold get_agent_commands.
    destruct (session_cls self); count_channels.
  - split; [|done]. unfold shutdown_session.
    destruct (session_cls self); count_channels.
  - split; [|done]. unfold close_connection. count_channels.
Qed.

Lemma run_calls_budget calls self tr :
  channels_created (run_calls calls self tr).2
    + channel_budget (run_calls calls self tr).1
    ≤ channels_created tr + channel_budget self ∧
  ∀ rpc, _rpc self = Some rpc → _rpc (run_calls calls self tr).1 = Some rpc.
Proof.
  revert self tr. induction calls as [|c calls IH]; intros self tr; simpl.
  { split; [lia|done]. }
  pose proof (run_call_budget c self tr) as [Hle Hkeep].
  destruct (run_call c self tr) as [self' tr']; simpl in *.
  destruct (IH self' tr') as [Hle' Hkeep'].
  split; [lia|]. intros rpc Hrpc. by apply Hkeep', Hkeep.
Qed.

Lemma channels_created_mono_call c self tr :
  channels_created tr ≤ channels_created (run_call c self tr).2.
Proof.
  destruct c as [span_iterator record_metric| |cfg|traces|info logs| | |]; simpl.
  - destruct (connect_span_stream_outcome self span_iterator record_metric tr)
      as [->|[_ [returned ->]]]; simpl; rewrite ?channels_created_app; lia.
  - unfold shutdown_span_stream. destruct (_rpc self); unfold_M; simpl;
      rewrite ?channels_created_app; lia.
  - done.
  - unfold send_transaction_traces. destruct traces; unfold_M; simpl;
      rewrite ?channels_created_app; lia.
  - unfold send_log_events. unfold_M. simpl. rewrite channels_created_app. lia.
  - unfold get_agent_commands. destruct (session_cls self); unfold_M; simpl;
      rewrite ?channels_created_app; lia.
  - unfold shutdown_session. destruct (session_cls self); unfold_M; simpl;
      rewrite ?channels_created_app; lia.
  - unfold close_connection. unfold_M. simpl. rewrite channels_created_app. lia.
Qed.

Lemma channels_created_mono calls self tr :
  channels_created tr ≤ channels_created (run_calls calls self tr).2.
Proof.
  revert self tr. induction calls as [|c calls IH]; intros self tr; simpl; [lia|].
  pose proof (channels_created_mono_call c self tr).
  destruct (run_call c self tr) as [self' tr']; simpl in *.
  specialize (IH self' tr'). lia.
Qed.

(** C2. A session constructs at most one streaming channel.  Once a channel
    is stored, [connect_span_stream] is a no-op under every configuration:
    it returns nothing, constructs nothing and leaves the session as it is.
    Over any sequence of calls by the host, a session without a channel adds
    at most one [StreamingRpc] construction to the trace, and a session with
    a channel adds none and keeps that channel. *)
Theorem connect_span_stream_at_most_one_channel :
  (∀ self rpc cfg span_iterator record_metric tr,
     _rpc self = Some rpc →
     connect_span_stream (set_configuration cfg self) span_iterator record_metric tr
       = (Return (None, set_configuration cfg self), tr)) ∧
  (∀ calls self tr,
     _rpc self = None →
     channels_created (run_calls calls self tr).2 ≤ channels_created tr + 1) ∧
  (∀ calls self tr rpc,
     _rpc self = Some rpc →
     channels_created (run_calls calls self tr).2 = channels_created tr ∧
     _rpc (run_calls calls self tr).1 = Some rpc).
Proof.
  split; [|split].
  - intros self rpc cfg span_iterator record_metric tr Hrpc.
    by apply connect_span_stream_stored with rpc.
  - intros calls self tr Hrpc.
    pose proof (run_calls_budget calls self tr) as [Hle _].
    unfold channel_budget in Hle at 2. rewrite Hrpc in Hle. lia.
  - intros calls self tr rpc Hrpc.
    pose proof (run_calls_budget calls self tr) as [Hle Hkeep].
    pose proof (channels_created_mono calls self tr).
    unfold channel_budget in Hle at 2. rewrite Hrpc in Hle.
    split; [lia|by apply Hkeep].
Qed.

(** C3. With the trace-observer host unset, or with a host and any one of
    distributed tracing, span-event reporting or span-event collection
    disabled, [connect_span_stream] returns nothing, raises nothing, makes no
    call to a collaborator and leaves the session as it was, so the channel
    stays absent; a later call on a default session without a channel, under
    a configuration with all four set, constructs a channel. *)
Theorem connect_span_stream_not_enabled self span_iterator record_metric tr :
  truthy (infinite_tracing_trace_observer_host (configuration self)) = false ∨
  distributed_tracing_enabled (configuration self) = false ∨
  span_events_enabled (configuration self) = false ∨
  collect_span_events (configuration self) = false →
  connect_span_stream self span_iterator record_metric tr = (Return (None, self), tr) ∧
  (session_cls self = ClsSession → _rpc self = None →
   ∀ cfg span_iterator' record_metric' tr',
     span_stream_enabled cfg = true →
     ∃ rpc,
       connect_span_stream (set_configuration cfg self) span_iterator'
         record_metric' tr' =
       (Return (Some rpc, set_rpc rpc (set_configuration cfg self)),
        tr' ++ [EvRpcNew rpc; EvRpcConnect (rpc_id rpc)])).
Proof.
  intros Hoff. split.
  - apply connect_span_stream_disabled. unfold span_stream_enabled.
    destruct Hoff as [-> | [-> | [-> | ->]]]; simpl;
      rewrite ?andb_false_r; done.
  - intros Hcls Hrpc cfg span_iterator' record_metric' tr' Hen.
    eexists. unfold connect_span_stream. simpl. rewrite Hcls.
    by apply Session_connect_span_stream_creates.
Qed.

(** The developer-mode method, when it runs the base method that constructs
    a channel: the channel is connected and stored, and the value returned
    is [None]. *)
Lemma DeveloperModeSession_connect_span_stream_creates self span_iterator
    record_metric tr :
  session_cls self = ClsDeveloperModeSession →
  debug_connect_span_stream_in_developer_mode (configuration self) = true →
  _rpc self = None →
  span_stream_enabled (configuration self) = true →
  let rpc := new_channel (configuration self) span_iterator record_metric tr in
  connect_span_stream self span_iterator record_metric tr =
    (Return (None, set_rpc rpc self),
     tr ++ [EvRpcNew rpc; EvRpcConnect (rpc_id rpc)]).
Proof.
  intros Hcls Hdebug Hrpc Hen. simpl.
  unfold connect_span_stream, DeveloperModeSession_connect_span_stream.
  rewrite Hcls, Hdebug. unfold mbind, M_bind.
  by rewrite Session_connect_span_stream_creates.
Qed.

(** The default session returns the channel it constructs, connects and
    stores. *)
Lemma Session_connect_span_stream_returns_channel self span_iterator
    record_metric tr :
  session_cls self = ClsSession →
  _rpc self = None →
  span_stream_enabled (configuration self) = true →
  let rpc := new_channel (configuration self) span_iterator record_metric tr in
  connect_span_stream self span_iterator record_metric tr =
    (Return (Some rpc, set_rpc rpc self),
     tr ++ [EvRpcNew rpc; EvRpcConnect (rpc_id rpc)]).
Proof.
  intros Hcls Hrpc Hen. simpl. unfold connect_span_stream. rewrite Hcls.
  by apply Session_connect_span_stream_creates.
Qed.

(** C4. On a developer-mode session with the debug flag set, a host
    configured and the three features enabled, [connect_span_stream]
    constructs the channel, connects it and stores it on the session, and
    returns [None] to the caller instead of the channel. *)
Theorem developer_mode_connect_span_stream_returns_none :
  let self := sample_session ClsDeveloperModeSession sample_settings in
  let rpc := new_channel sample_settings 7 8 [] in
  connect_span_stream self 7 8 [] =
    (Return (None, set_rpc rpc self), [EvRpcNew rpc; EvRpcConnect (rpc_id rpc)]) ∧
  _rpc (set_rpc rpc self) = Some rpc ∧
  rpc_endpoint rpc = "observer.example:443".
Proof.
  split; [|split; reflexivity].
  by apply (DeveloperModeSession_connect_span_stream_creates
              (sample_session ClsDeveloperModeSession sample_settings) 7 8 []).
Qed.

(** The claim of C5 fails on a session that never had a channel: after
    [shutdown_span_stream], [connect_span_stream] constructs one. *)
Lemma shutdown_then_connect_creates_channel :
  let self := sample_session ClsSession sample_settings in
  let tr1 := (shutdown_span_stream self []).2 in
  let rpc := new_channel sample_settings 7 8 tr1 in
  shutdown_span_stream self [] = (Return tt, []) ∧
  connect_span_stream self 7 8 tr1 =
    (Return (Some rpc, set_rpc rpc self), [EvRpcNew rpc; EvRpcConnect (rpc_id rpc)]) ∧
  channels_created tr1 = 0 ∧
  channels_created (connect_span_stream self 7 8 tr1).2 = 1.
Proof. repeat split; vm_compute; reflexivity. Qed.

(** C5, amended. [shutdown_span_stream] closes the stored channel when there
    is one and leaves it stored; from then on no [connect_span_stream], under
    any configuration, and no sequence of calls constructs a channel.  On a
    session without a channel it does nothing. *)
Theorem shutdown_span_stream_keeps_channel self tr :
  (∀ rpc, _rpc self = Some rpc →
     shutdown_span_stream self tr = (Return tt, tr ++ [EvRpcClose (rpc_id rpc)]) ∧
     (∀ cfg span_iterator record_metric tr',
        connect_span_stream (set_configuration cfg self) span_iterator
          record_metric tr' = (Return (None, set_configuration cfg self), tr')) ∧
     (∀ calls,
        channels_created (run_calls (CallShutdownSpanStream :: calls) self tr).2
          = channels_created tr)) ∧
  (_rpc self = None → shutdown_span_stream self tr = (Return tt, tr)).
Proof.
  split.
  - intros rpc Hrpc. unfold shutdown_span_stream. rewrite Hrpc. split; [done|]. split.
    + intros cfg span_iterator record_metric tr'.
      by apply connect_span_stream_stored with rpc.
    + intros calls. simpl. unfold shutdown_span_stream. rewrite Hrpc. simpl.
      pose proof (run_calls_budget calls self (tr ++ [EvRpcClose (rpc_id rpc)]))
        as [Hle _].
      pose proof (channels_created_mono calls self (tr ++ [EvRpcClose (rpc_id rpc)])).
      unfold channel_budget in Hle at 2. rewrite Hrpc in Hle.
      rewrite channels_created_app, channels_created_cons in *. simpl in *.
      unfold channels_created at 3 in Hle. unfold channels_created at 2 in H.
      simpl in *. lia.
  - intros Hrpc. unfold shutdown_span_stream. by rewrite Hrpc.
Qed.

(** C6. [send_transaction_traces] with no traces returns [None] and makes no
    call; with traces it sends the pair of the agent run id and the traces to
    the endpoint transaction_sample_data of the primary protocol, once, and
    returns what the protocol answers. *)
Theorem send_transaction_traces_spec self tr :
  send_transaction_traces self [] tr = (Return (VScalar SNone), tr) ∧
  ∀ transaction_traces,
    transaction_traces ≠ [] →
    let payload := VTuple [VScalar (agent_run_id (configuration self));
                           VList transaction_traces] in
    send_transaction_traces self transaction_traces tr =
      (send_outcome tr (_protocol self) "transaction_sample_data" payload None,
       tr ++ [EvSend (protocol_id (_protocol self)) "transaction_sample_data"
                payload None]).
Proof.
  split; [done|].
  intros [|trace_ rest] Hne; [done|]. reflexivity.
Qed.

(** ** The common block of log events *)

Lemma getitem_label_type label :
  getitem (make_label label) "label_type" = Return (SStr label.1).
Proof. reflexivity. Qed.

Lemma getitem_label_value label :
  getitem (make_label label) "label_value" = Return label.2.
Proof. reflexivity. Qed.

Lemma label_tags_excluding_make_label exclude labels tags :
  label_tags_excluding exclude (make_label <$> labels) tags =
    Return (foldl (add_tag exclude) tags labels).
Proof.
  revert tags. induction labels as [|label labels IH]; intros tags; [done|].
  rewrite fmap_cons. cbn [label_tags_excluding foldl].
  rewrite getitem_label_type, getitem_label_value.
  unfold mbind, result_bind, str_lower, add_tag. cbn [format].
  destruct (bool_decide _); apply IH.
Qed.

Lemma tag_key_inj (a b : string) : "tags." +:+ a = "tags." +:+ b → a = b.
Proof. intros H. cbv in H. congruence. Qed.

(** A key that no kept label writes is left as it was. *)
Lemma add_tags_lookup_other exclude labels tags key :
  (∀ label, label ∈ labels → lower label.1 ∉ exclude → key ≠ "tags." +:+ label.1) →
  foldl (add_tag exclude) tags labels !! key = tags !! key.
Proof.
  revert tags. induction labels as [|label labels IH]; intros tags Hother; [done|].
  cbn [foldl]. rewrite IH.
  - unfold add_tag. case_bool_decide as Hin; [done|].
    rewrite lookup_insert_ne; [done|].
    intros Heq. eapply Hother; [by left|done|done].
  - intros label' Hin. apply Hother. by right.
Qed.

(** A kept label's key holds the value of a label of that type. *)
Lemma add_tags_lookup_kept exclude labels tags label :
  label ∈ labels → lower label.1 ∉ exclude →
  ∃ label', label' ∈ labels ∧ label'.1 = label.1 ∧
    foldl (add_tag exclude) tags labels !! ("tags." +:+ label.1)
      = Some (VScalar label'.2).
Proof.
  induction labels as [|last labels IH] using rev_ind; intros Hin Hkeep.
  { by apply elem_of_nil in Hin. }
  rewrite foldl_app. cbn [foldl].
  destruct (decide (last.1 = label.1)) as [Hsame|Hdiff].
  - exists last. split; [apply elem_of_app; right; by apply list_elem_of_singleton|].
    split; [done|].
    unfold add_tag. rewrite Hsame, bool_decide_eq_false_2 by done.
    by rewrite lookup_insert_eq.
  - assert (label ∈ labels) as Hin'.
    { apply elem_of_app in Hin as [?|Hlast]; [done|].
      apply list_elem_of_singleton in Hlast. by subst. }
    destruct (IH Hin' Hkeep) as (label' & Hl & Ht & Hv).
    exists label'. split; [apply elem_of_app; by left|]. split; [done|].
    unfold add_tag. case_bool_decide; [done|].
    rewrite lookup_insert_ne; [done|].
    intros Heq. by apply tag_key_inj in Heq.
Qed.

(** C7, amended. With label forwarding enabled and a non-empty exclusion
    list, the common block is the custom attributes updated with one tag per
    label whose lower-cased type is an element of the exclusion list as the
    list holds it: the key of such a label is left to the custom attributes,
    the key of every other label holds the value of a label of that type,
    and no other key changes.  When every exclusion entry is in lower case,
    a label whose type matches an entry in any letter case is omitted. *)
Theorem get_log_events_common_block_exclusion self typed_labels custom :
  labels (configuration self) = make_label <$> typed_labels →
  typed_labels ≠ [] →
  application_logging_forwarding_labels_enabled (configuration self) = true →
  application_logging_forwarding_labels_exclude (configuration self) ≠ [] →
  process_custom_attributes
    (application_logging_forwarding_custom_attributes (configuration self)) ∅
    = Return custom →
  let exclude := application_logging_forwarding_labels_exclude (configuration self) in
  let common := get_log_events_common_block self in
  (∀ label, label ∈ typed_labels → lower label.1 ∈ exclude →
     common !! ("tags." +:+ label.1) = custom !! ("tags." +:+ label.1)) ∧
  (∀ label, label ∈ typed_labels → lower label.1 ∉ exclude →
     ∃ label', label' ∈ typed_labels ∧ label'.1 = label.1 ∧
       common !! ("tags." +:+ label.1) = Some (VScalar label'.2)) ∧
  (∀ key,
     (∀ label, label ∈ typed_labels → lower label.1 ∉ exclude →
        key ≠ "tags." +:+ label.1) →
     common !! key = custom !! key) ∧
  ((∀ entry, entry ∈ exclude → lower entry = entry) →
   ∀ label entry, label ∈ typed_labels → entry ∈ exclude →
     same_ignoring_case label.1 entry →
     common !! ("tags." +:+ label.1) = custom !! ("tags." +:+ label.1)).
Proof.
  intros Hlabels Hne Hen Hex Hcustom exclude common.
  assert (common = foldl (add_tag exclude) ∅ typed_labels ∪ custom) as Hcommon.
  { subst common exclude. unfold get_log_events_common_block, common_block_try.
    rewrite Hlabels, Hen.
    revert Hcustom.
    generalize (application_logging_forwarding_custom_attributes (configuration self)).
    intros attributes Hcustom.
    assert (match attributes with
            | [] => Return (∅ : gmap string value)
            | _ :: _ =>
                custom_attributes ← process_custom_attributes attributes ∅;
                Return (dict_update ∅ custom_attributes)
            end = Return custom) as Hstage.
    { rewrite Hcustom. destruct attributes; simpl in *.
      - congruence.
      - unfold dict_update. by rewrite (right_id_L ∅ (∪)). }
    destruct attributes as [|attribute attributes]; rewrite Hstage; clear Hstage.
    all: cbn [mbind result_bind].
    all: destruct typed_labels as [|label labels]; [done|].
    all: rewrite fmap_cons; cbn [negb].
    all: destruct (application_logging_forwarding_labels_exclude _)
           as [|entry entries]; [done|].
    all: rewrite <- fmap_cons, label_tags_excluding_make_label; reflexivity. }
  assert (∀ key,
    (∀ label, label ∈ typed_labels → lower label.1 ∉ exclude →
       key ≠ "tags." +:+ label.1) →
    common !! key = custom !! key) as Hother.
  { intros key Hkey. rewrite Hcommon. apply lookup_union_r.
    by rewrite add_tags_lookup_other. }
  assert (∀ label, label ∈ typed_labels → lower label.1 ∈ exclude →
    common !! ("tags." +:+ label.1) = custom !! ("tags." +:+ label.1)) as Homit.
  { intros label Hin Hexcl. apply Hother.
    intros label' Hin' Hkeep Heq. apply tag_key_inj in Heq.
    apply Hkeep. by rewrite <- Heq. }
  split; [done|]. split; [|split; [done|]].
  - intros label Hin Hkeep.
    destruct (add_tags_lookup_kept exclude typed_labels ∅ label Hin Hkeep)
      as (label' & Hin' & Htype & Hval).
    exists label'. split; [done|]. split; [done|].
    rewrite Hcommon. by apply lookup_union_Some_l.
  - intros Hlower label entry Hin Hentry Hsame. apply Homit; [done|].
    unfold same_ignoring_case in Hsame. rewrite Hsame, Hlower; done.
Qed.

Lemma label_tags_fault labels tags label :
  label ∈ labels → label !! "label_type" = None →
  ∃ e, label_tags labels tags = Raise e.
Proof.
  revert tags. induction labels as [|first labels IH]; intros tags Hin Hnone.
  { by apply elem_of_nil in Hin. }
  cbn [label_tags]. unfold getitem.
  apply elem_of_cons in Hin as [<-|Hin].
  { rewrite Hnone. by eexists. }
  destruct (first !! "label_type"); [|by eexists]. cbn [mbind result_bind].
  destruct (first !! "label_value"); [|by eexists]. cbn [mbind result_bind].
  by apply IH.
Qed.

Lemma label_tags_excluding_fault exclude labels tags label :
  label ∈ labels → label !! "label_type" = None →
  ∃ e, label_tags_excluding exclude labels tags = Raise e.
Proof.
  revert tags. induction labels as [|first labels IH]; intros tags Hin Hnone.
  { by apply elem_of_nil in Hin. }
  cbn [label_tags_excluding]. unfold getitem.
  apply elem_of_cons in Hin as [<-|Hin].
  { rewrite Hnone. by eexists. }
  destruct (first !! "label_type") as [tested|]; [|by eexists].
  cbn [mbind result_bind].
  destruct (str_lower tested); [|by eexists]. cbn [mbind result_bind].
  destruct (bool_decide _); [by apply IH|].
  destruct (first !! "label_value"); [|by eexists]. cbn [mbind result_bind].
  by apply IH.
Qed.

(** A label without a type, with label forwarding enabled, empties the block
    whatever custom attributes were collected before the labels were read. *)
Lemma get_log_events_common_block_label_fault self label :
  label ∈ labels (configuration self) → label !! "label_type" = None →
  application_logging_forwarding_labels_enabled (configuration self) = true →
  (∃ e, common_block_try (configuration self) = Raise e) ∧
  get_log_events_common_block self = ∅.
Proof.
  intros Hin Hnone Hen.
  assert (∃ e, common_block_try (configuration self) = Raise e) as [e He].
  { unfold common_block_try. rewrite Hen.
    destruct (match application_logging_forwarding_custom_attributes _ with
              | [] => _ | _ => _ end) as [common|e]; [|by eexists].
    cbn [mbind result_bind negb].
    destruct (labels (configuration self)) as [|first rest] eqn:Hlabels.
    { by apply elem_of_nil in Hin. }
    destruct (application_logging_forwarding_labels_exclude _) as [|entry entries].
    - destruct (label_tags_fault (first :: rest) ∅ label Hin Hnone) as [e' ->].
      by eexists.
    - destruct (label_tags_excluding_fault (entry :: entries) (first :: rest) ∅
                  label Hin Hnone) as [e' ->].
      by eexists. }
  split; [by eexists|].
  unfold get_log_events_common_block. by rewrite He.
Qed.

(** An exception of the normaliser on the first custom attribute empties
    the block. *)
Lemma get_log_events_common_block_attribute_fault self name val rest e :
  application_logging_forwarding_custom_attributes (configuration self)
    = (name, val) :: rest →
  0 < MAX_NUM_USER_ATTRIBUTES →
  process_user_attribute name val = Raise e →
  common_block_try (configuration self) = Raise e ∧
  get_log_events_common_block self = ∅.
Proof.
  intros Hattrs Hmax Hraise.
  assert (common_block_try (configuration self) = Raise e) as He.
  { unfold common_block_try. rewrite Hattrs. cbn [process_custom_attributes].
    rewrite map_size_empty.
    destruct (Nat.leb_spec MAX_NUM_USER_ATTRIBUTES 0) as [Hle|_]; [lia|].
    by rewrite Hraise. }
  split; [done|]. unfold get_log_events_common_block. by rewrite He.
Qed.

(** C8. [get_log_events_common_block] is a total function into dicts: no
    exception leaves it.  When the guarded block raises, whatever it had
    built, the method returns the empty dict; when it does not, the method
    returns the block's dict.  In particular a label without a type, and an
    exception of the attribute normaliser, give the empty dict. *)
Theorem get_log_events_common_block_never_raises self :
  (∀ e, common_block_try (configuration self) = Raise e →
        get_log_events_common_block self = ∅) ∧
  (∀ common, common_block_try (configuration self) = Return common →
             get_log_events_common_block self = common) ∧
  (∀ label,
     label ∈ labels (configuration self) → label !! "label_type" = None →
     application_logging_forwarding_labels_enabled (configuration self) = true →
     get_log_events_common_block self = ∅) ∧
  (∀ name val rest e,
     application_logging_forwarding_custom_attributes (configuration self)
       = (name, val) :: rest →
     0 < MAX_NUM_USER_ATTRIBUTES →
     process_user_attribute name val = Raise e →
     get_log_events_common_block self = ∅).
Proof.
  split; [|split; [|split]].
  - unfold get_log_events_common_block. by intros e ->.
  - unfold get_log_events_common_block. by intros common ->.
  - intros label Hin Hnone Hen.
    by apply (get_log_events_common_block_label_fault self label).
  - intros name val rest e Hattrs Hmax Hraise.
    by apply (get_log_events_common_block_attribute_fault self name val rest e).
Qed.

(** C9. [send_log_events] makes one call, to the endpoint log_event_data of
    the primary protocol, with a one-element tuple holding a dict.  The dict
    has the records under the key logs, each turned into a dict, and it has
    the key common, holding the block under attributes, exactly when the
    block is not empty. *)
Theorem send_log_events_payload self sampling_info log_event_data tr :
  ∃ payload0 : gmap string value,
    send_log_events self sampling_info log_event_data tr =
      (send_outcome tr (_protocol self) "log_event_data" (VTuple [VDict payload0]) None,
       tr ++ [EvSend (protocol_id (_protocol self)) "log_event_data"
                (VTuple [VDict payload0]) None]) ∧
    payload0 !! "logs" = Some (VTuple (_asdict <$> log_event_data)) ∧
    (is_Some (payload0 !! "common") ↔ get_log_events_common_block self ≠ ∅) ∧
    (get_log_events_common_block self ≠ ∅ →
     payload0 !! "common" =
       Some (VDict {["attributes" := VDict (get_log_events_common_block self)]})) ∧
    (∀ key, key ≠ "logs" → key ≠ "common" → payload0 !! key = None).
Proof.
  unfold send_log_events, Protocol_send.
  eexists. split; [reflexivity|].
  case_bool_decide as Hempty.
  - split; [by rewrite lookup_singleton_eq|]. split; [split|split].
    + intros [x Hx]. by rewrite lookup_singleton_ne in Hx.
    + intros Hne. by destruct Hne.
    + intros Hne. by destruct Hne.
    + intros key Hk _. by rewrite lookup_singleton_ne.
  - split; [by rewrite lookup_insert_ne, lookup_singleton_eq|].
    split; [split|split].
    + done.
    + intros _. rewrite lookup_insert_eq. by eexists.
    + intros _. by rewrite lookup_insert_eq.
    + intros key Hk Hc. by rewrite lookup_insert_ne, lookup_singleton_ne.
Qed.

(** C10. [Session.__init__] connects the primary protocol first and the OTLP
    protocol second.  When the first connect answers and the second raises,
    the exception leaves the constructor, the trace ends with the primary
    connect followed by the failed OTLP connect, no [close_connection] was
    called, and the primary protocol is among the open connections. *)
Theorem Session__init__otlp_failure cls app_name linked_applications environment
    settings tr cfg e :
  connect_outcome tr (PROTOCOL cls) (CLIENT cls) app_name linked_applications
    environment settings = Return cfg →
  let primary :=
    {| protocol_id := length tr; protocol_cls := PROTOCOL cls;
       protocol_client_cls := CLIENT cls; protocol_configuration := cfg |} in
  connect_outcome (tr ++ [EvConnect primary]) (OTLP_PROTOCOL cls) (CLIENT cls)
    app_name linked_applications environment settings = Raise e →
  Session__init__ cls app_name linked_applications environment settings tr =
    (Raise e, tr ++ [EvConnect primary; EvConnectFailed OtlpProtocol e]) ∧
  open_connections (tr ++ [EvConnect primary; EvConnectFailed OtlpProtocol e]) =
    open_connections tr ++ [protocol_id primary] ∧
  protocol_id primary ∈
    open_connections (tr ++ [EvConnect primary; EvConnectFailed OtlpProtocol e]).
Proof.
  intros Hprimary primary Hotlp.
  assert (open_connections (tr ++ [EvConnect primary; EvConnectFailed OtlpProtocol e])
          = open_connections tr ++ [protocol_id primary]) as Hopen.
  { by rewrite open_connections_app. }
  split; [|split; [done|]].
  - unfold Session__init__, Protocol_connect. unfold_M.
    rewrite Hprimary. fold primary. rewrite Hotlp.
    by rewrite <- app_assoc.
  - rewrite Hopen. apply elem_of_app. right. by apply list_elem_of_singleton.
Qed.

(** ** Further properties of the common block *)

Lemma map_size_union_le (m1 m2 : gmap string value) :
  size (m1 ∪ m2) ≤ size m1 + size m2.
Proof.
  rewrite <- !size_dom, dom_union_L, size_union_alt.
  assert (size (dom m2 ∖ dom m1) ≤ size (dom m2)); [|lia].
  apply subseteq_size. apply subseteq_difference_l. done.
Qed.

Lemma map_size_insert_le (m : gmap string value) key val :
  size (<[key := val]> m) ≤ S (size m).
Proof. rewrite map_size_insert. destruct (m !! key); simpl; lia. Qed.

(** What the guarded block returns is the label tags over the custom
    attributes. *)
Lemma common_block_try_inv cfg common :
  common_block_try cfg = Return common →
  ∃ custom tags,
    process_custom_attributes
      (application_logging_forwarding_custom_attributes cfg) ∅ = Return custom ∧
    common = tags ∪ custom ∧
    (tags = ∅ ∨
     (application_logging_forwarding_labels_enabled cfg = true ∧
      application_logging_forwarding_labels_exclude cfg = [] ∧
      label_tags (labels cfg) ∅ = Return tags) ∨
     (application_logging_forwarding_labels_enabled cfg = true ∧
      application_logging_forwarding_labels_exclude cfg ≠ [] ∧
      label_tags_excluding (application_logging_forwarding_labels_exclude cfg)
        (labels cfg) ∅ = Return tags)).
Proof.
  unfold common_block_try.
  generalize (application_logging_forwarding_custom_attributes cfg).
  intros attributes Htry.
  assert (∃ custom, process_custom_attributes attributes ∅ = Return custom ∧
            match attributes with
            | [] => Return (∅ : gmap string value)
            | _ :: _ =>
                custom_attributes ← process_custom_attributes attributes ∅;
                Return (dict_update ∅ custom_attributes)
            end = Return custom) as (custom & Hcustom & Hstage).
  { destruct attributes as [|attribute attributes]; [by exists ∅|].
    destruct (process_custom_attributes (attribute :: attributes) ∅) as [custom|e];
      [|done].
    exists custom. split; [done|]. cbn [mbind result_bind].
    unfold dict_update. by rewrite (right_id_L ∅ (∪)). }
  exists custom.
  destruct attributes as [|attribute attributes]; rewrite Hstage in Htry;
    clear Hstage; cbn [mbind result_bind] in Htry.
  all: destruct (labels cfg) as [|label rest] eqn:Hlabels;
    [exists ∅; split; [done|]; split; [|by left];
     rewrite (left_id_L ∅ (∪)); congruence|].
  all: destruct (application_logging_forwarding_labels_enabled cfg);
    cbn [negb] in Htry;
    [|exists ∅; split; [done|]; split; [|by left];
      rewrite (left_id_L ∅ (∪)); congruence].
  all: destruct (application_logging_forwarding_labels_exclude cfg)
         as [|entry entries] eqn:Hexclude.
  all: match type of Htry with
       | context [label_tags ?l ?a] =>
           destruct (label_tags l a) as [tags|e] eqn:Htags; [|done]
       | context [label_tags_excluding ?x ?l ?a] =>
           destruct (label_tags_excluding x l a) as [tags|e] eqn:Htags; [|done]
       end.
  all: exists tags; split; [done|]; cbn [mbind result_bind] in Htry;
    unfold dict_update in Htry; split; [congruence|].
  all: first [by right; left | by right; right].
Qed.

Lemma process_custom_attributes_size attributes custom_attributes result :
  process_custom_attributes attributes custom_attributes = Return result →
  size result ≤ Nat.max MAX_NUM_USER_ATTRIBUTES (size custom_attributes).
Proof.
  revert custom_attributes.
  induction attributes as [|[name val] rest IH]; intros acc Hrun.
  { injection Hrun as <-. lia. }
  cbn [process_custom_attributes] in Hrun.
  destruct (Nat.leb_spec MAX_NUM_USER_ATTRIBUTES (size acc)) as [Hfull|Hroom].
  { injection Hrun as <-. lia. }
  destruct (process_user_attribute name val) as [[[key|] val']|e];
    cbn [mbind result_bind] in Hrun; [| |done].
  - apply IH in Hrun. pose proof (map_size_insert_le acc key val'). lia.
  - apply IH in Hrun. lia.
Qed.

Lemma process_custom_attributes_provenance attributes custom_attributes result key val :
  process_custom_attributes attributes custom_attributes = Return result →
  result !! key = Some val →
  custom_attributes !! key = Some val ∨
  ∃ name attr_value, (name, attr_value) ∈ attributes ∧
    process_user_attribute name attr_value = Return (Some key, val).
Proof.
  revert custom_attributes.
  induction attributes as [|[name attr_value] rest IH]; intros acc Hrun Hkey.
  { injection Hrun as <-. by left. }
  cbn [process_custom_attributes] in Hrun.
  destruct (MAX_NUM_USER_ATTRIBUTES <=? size acc)%nat.
  { injection Hrun as <-. by left. }
  destruct (process_user_attribute name attr_value) as [[[key'|] val']|e] eqn:Hacc;
    cbn [mbind result_bind] in Hrun; [| |done].
  - destruct (IH _ Hrun Hkey) as [Hin|(n & a & Hin & Hn)].
    + destruct (decide (key' = key)) as [->|Hne].
      * rewrite lookup_insert_eq in Hin. injection Hin as ->.
        right. exists name, attr_value. split; [by left|done].
      * rewrite lookup_insert_ne in Hin by done. by left.
    + right. exists n, a. split; [by right|done].
  - destruct (IH _ Hrun Hkey) as [Hin|(n & a & Hin & Hn)]; [by left|].
    right. exists n, a. split; [by right|done].
Qed.

Lemma process_custom_attributes_complete attributes custom_attributes result :
  process_custom_attributes attributes custom_attributes = Return result →
  size custom_attributes + length attributes ≤ MAX_NUM_USER_ATTRIBUTES →
  (∀ key, is_Some (custom_attributes !! key) → is_Some (result !! key)) ∧
  (∀ name attr_value key val,
     (name, attr_value) ∈ attributes →
     process_user_attribute name attr_value = Return (Some key, val) →
     is_Some (result !! key)).
Proof.
  revert custom_attributes.
  induction attributes as [|[name attr_value] rest IH]; intros acc Hrun Hroom.
  { injection Hrun as <-. split; [done|]. intros ???? Hin. by apply elem_of_nil in Hin. }
  cbn [process_custom_attributes] in Hrun. cbn [length] in Hroom.
  destruct (Nat.leb_spec MAX_NUM_USER_ATTRIBUTES (size acc)) as [Hfull|_]; [lia|].
  destruct (process_user_attribute name attr_value) as [[[key'|] val']|e] eqn:Hacc;
    cbn [mbind result_bind] in Hrun; [| |done].
  - pose proof (map_size_insert_le acc key' val').
    destruct (IH _ Hrun) as [Hkeep Hall]; [lia|]. split.
    + intros key Hkey. apply Hkeep.
      destruct (decide (key' = key)) as [->|Hne].
      * rewrite lookup_insert_eq. by eexists.
      * by rewrite lookup_insert_ne.
    + intros n a key val Hin Hn. apply elem_of_cons in Hin as [Heq|Hin].
      * injection Heq as -> ->. rewrite Hacc in Hn. injection Hn as -> ->.
        apply Hkeep. rewrite lookup_insert_eq. by eexists.
      * by eapply Hall.
  - destruct (IH _ Hrun) as [Hkeep Hall]; [lia|]. split; [done|].
    intros n a key val Hin Hn. apply elem_of_cons in Hin as [Heq|Hin].
    + injection Heq as -> ->. rewrite Hacc in Hn. done.
    + by eapply Hall.
Qed.

(** The comprehension with a condition is the plain one over the labels it
    keeps. *)
Lemma label_tags_excluding_kept exclude labels tags result :
  label_tags_excluding exclude labels tags = Return result →
  ∃ kept, sublist kept labels ∧ label_tags kept tags = Return result.
Proof.
  revert tags. induction labels as [|label rest IH]; intros tags Hrun.
  { exists []. split; [done|]. exact Hrun. }
  cbn [label_tags_excluding] in Hrun. unfold getitem in Hrun.
  destruct (label !! "label_type") as [tested|] eqn:Htype; [|done].
  cbn [mbind result_bind] in Hrun.
  destruct (str_lower tested) as [lowered|e]; [|done].
  cbn [mbind result_bind] in Hrun.
  destruct (bool_decide (lowered ∈ exclude)).
  - destruct (IH _ Hrun) as (kept & Hsub & Hkept).
    exists kept. split; [by apply sublist_cons|done].
  - destruct (label !! "label_value") as [label_value|] eqn:Hvalue; [|done].
    cbn [mbind result_bind] in Hrun.
    destruct (IH _ Hrun) as (kept & Hsub & Hkept).
    exists (label :: kept). split; [by apply sublist_skip|].
    cbn [label_tags]. unfold getitem. rewrite Htype, Hvalue. exact Hkept.
Qed.

Lemma label_tags_size labels tags result :
  label_tags labels tags = Return result →
  size result ≤ size tags + length labels.
Proof.
  revert tags. induction labels as [|label rest IH]; intros tags Hrun.
  { injection Hrun as <-. lia. }
  cbn [label_tags] in Hrun. unfold getitem in Hrun.
  destruct (label !! "label_type") as [label_type|]; [|done].
  destruct (label !! "label_value") as [label_value|]; [|done].
  cbn [mbind result_bind] in Hrun. apply IH in Hrun.
  pose proof (map_size_insert_le tags ("tags." +:+ format label_type)
                (VScalar label_value)).
  cbn [length]. lia.
Qed.

Lemma label_tags_provenance labels tags result key val :
  label_tags labels tags = Return result →
  result !! key = Some val →
  tags !! key = Some val ∨
  ∃ label label_type label_value,
    label ∈ labels ∧ label !! "label_type" = Some label_type ∧
    label !! "label_value" = Some label_value ∧
    key = "tags." +:+ format label_type ∧ val = VScalar label_value.
Proof.
  revert tags. induction labels as [|label rest IH]; intros tags Hrun Hkey.
  { injection Hrun as <-. by left. }
  cbn [label_tags] in Hrun. unfold getitem in Hrun.
  destruct (label !! "label_type") as [label_type|] eqn:Htype; [|done].
  destruct (label !! "label_value") as [label_value|] eqn:Hvalue; [|done].
  cbn [mbind result_bind] in Hrun.
  destruct (IH _ Hrun Hkey) as [Hin|(l & t & v & Hin & Ht & Hv & Hk & Hval)].
  - destruct (decide ("tags." +:+ format label_type = key)) as [Heq|Hne].
    + rewrite Heq, lookup_insert_eq in Hin. injection Hin as <-.
      right. exists label, label_type, label_value.
      split; [by left|]. by rewrite Heq.
    + rewrite lookup_insert_ne in Hin by done. by left.
  - right. exists l, t, v. split; [by right|done].
Qed.

Lemma label_tags_other_keys labels tags result key :
  label_tags labels tags = Return result →
  (∀ suffix, key ≠ "tags." +:+ suffix) →
  result !! key = tags !! key.
Proof.
  revert tags. induction labels as [|label rest IH]; intros tags Hrun Hkey.
  { by injection Hrun as <-. }
  cbn [label_tags] in Hrun. unfold getitem in Hrun.
  destruct (label !! "label_type") as [label_type|]; [|done].
  destruct (label !! "label_value") as [label_value|]; [|done].
  cbn [mbind result_bind] in Hrun.
  rewrite (IH _ Hrun Hkey). apply lookup_insert_ne.
  intros Heq. by apply (Hkey (format label_type)).
Qed.

(** The tags of a returned block come from the plain comprehension over
    some of the labels. *)
Lemma common_block_try_tags cfg common :
  common_block_try cfg = Return common →
  ∃ custom tags kept,
    process_custom_attributes
      (application_logging_forwarding_custom_attributes cfg) ∅ = Return custom ∧
    common = tags ∪ custom ∧ sublist kept (labels cfg) ∧
    label_tags kept ∅ = Return tags ∧
    (labels cfg = [] ∨ application_logging_forwarding_labels_enabled cfg = false →
     tags = ∅).
Proof.
  intros Htry. pose proof Htry as Hshape.
  apply common_block_try_inv in Htry
    as (custom & tags & Hcustom & -> & [->|[(Hen & Hex & Htags)|(Hen & Hex & Htags)]]).
  - exists custom, ∅, []. repeat split; try done. apply sublist_nil_l.
  - exists custom, tags, (labels cfg). repeat split; try done.
    intros [Hnil|Hoff]; [|congruence].
    rewrite Hnil in Htags. by injection Htags.
  - apply label_tags_excluding_kept in Htags as (kept & Hsub & Hkept).
    exists custom, tags, kept. repeat split; try done.
    intros [Hnil|Hoff]; [|congruence].
    rewrite Hnil in Hsub. apply sublist_nil_r in Hsub. subst kept.
    by injection Hkept.
Qed.

(** X1. The common block never holds more entries than the bound on custom
    attributes plus the number of labels, and no more than the bound when
    there are no labels or label forwarding is disabled. *)
Theorem get_log_events_common_block_size self :
  size (get_log_events_common_block self)
    ≤ MAX_NUM_USER_ATTRIBUTES + length (labels (configuration self)) ∧
  (labels (configuration self) = [] ∨
   application_logging_forwarding_labels_enabled (configuration self) = false →
   size (get_log_events_common_block self) ≤ MAX_NUM_USER_ATTRIBUTES).
Proof.
  unfold get_log_events_common_block.
  destruct (common_block_try (configuration self)) as [common|e] eqn:Htry.
  2: { rewrite map_size_empty. split; intros; lia. }
  apply common_block_try_tags in Htry
    as (custom & tags & kept & Hcustom & -> & Hsub & Htags & Hoff).
  apply process_custom_attributes_size in Hcustom.
  rewrite map_size_empty in Hcustom.
  split.
  - pose proof (map_size_union_le tags custom).
    apply label_tags_size in Htags. rewrite map_size_empty in Htags.
    apply sublist_length in Hsub. lia.
  - intros Hnone. rewrite (Hoff Hnone), (left_id_L ∅ (∪)). lia.
Qed.

(** X2. Every entry of the common block comes from the settings: it is a key
    and value the normaliser returned for a configured custom attribute, or
    the tag of a label, named after the label's type and holding the
    label's value. *)
Theorem get_log_events_common_block_provenance self key val :
  get_log_events_common_block self !! key = Some val →
  (∃ name attr_value,
     (name, attr_value) ∈
       application_logging_forwarding_custom_attributes (configuration self) ∧
     process_user_attribute name attr_value = Return (Some key, val)) ∨
  (∃ label label_type label_value,
     label ∈ labels (configuration self) ∧
     label !! "label_type" = Some label_type ∧
     label !! "label_value" = Some label_value ∧
     key = "tags." +:+ format label_type ∧ val = VScalar label_value).
Proof.
  unfold get_log_events_common_block.
  destruct (common_block_try (configuration self)) as [common|e] eqn:Htry; [|done].
  apply common_block_try_tags in Htry
    as (custom & tags & kept & Hcustom & -> & Hsub & Htags & _).
  intros Hkey. apply lookup_union_Some_raw in Hkey as [Htag|[_ Hattr]].
  - right.
    destruct (label_tags_provenance _ _ _ _ _ Htags Htag)
      as [Hempty|(label & t & v & Hin & Ht & Hv & Hk & Hval)]; [done|].
    exists label, t, v. split; [by eapply elem_of_sublist|done].
  - left.
    destruct (process_custom_attributes_provenance _ _ _ _ _ Hcustom Hattr)
      as [Hempty|Hfound]; done.
Qed.

(** X3. When the configured custom attributes are no more than the bound and
    the block is built without a fault, no accepted attribute is dropped:
    every key the normaliser returned is a key of the common block. *)
Theorem get_log_events_common_block_keeps_accepted self common name attr_value
    key val :
  length (application_logging_forwarding_custom_attributes (configuration self))
    ≤ MAX_NUM_USER_ATTRIBUTES →
  common_block_try (configuration self) = Return common →
  (name, attr_value) ∈
    application_logging_forwarding_custom_attributes (configuration self) →
  process_user_attribute name attr_value = Return (Some key, val) →
  is_Some (get_log_events_common_block self !! key).
Proof.
  intros Hlen Htry Hin Hacc. unfold get_log_events_common_block. rewrite Htry.
  apply common_block_try_tags in Htry
    as (custom & tags & kept & Hcustom & -> & _).
  apply process_custom_attributes_complete in Hcustom as [_ Hall].
  2: { rewrite map_size_empty. lia. }
  apply lookup_union_is_Some. right. by eapply Hall.
Qed.

(** X4. Without labels, or with label forwarding disabled, the common block
    is the dict of the custom attributes, and the empty dict when the
    normaliser raised: the labels and the exclusion list play no part. *)
Theorem get_log_events_common_block_labels_off self :
  labels (configuration self) = [] ∨
  application_logging_forwarding_labels_enabled (configuration self) = false →
  get_log_events_common_block self =
    match process_custom_attributes
            (application_logging_forwarding_custom_attributes (configuration self)) ∅
    with
    | Return custom_attributes => custom_attributes
    | Raise _ => ∅
    end.
Proof.
  intros Hoff. unfold get_log_events_common_block.
  destruct (common_block_try (configuration self)) as [common|e] eqn:Htry.
  - apply common_block_try_tags in Htry
      as (custom & tags & kept & -> & -> & _ & _ & Hnone).
    by rewrite (Hnone Hoff), (left_id_L ∅ (∪)).
  - destruct (process_custom_attributes _ ∅) as [custom|e'] eqn:Hcustom; [|done].
    exfalso. revert Htry Hcustom. unfold common_block_try.
    generalize (application_logging_forwarding_custom_attributes (configuration self)).
    intros attributes Htry Hcustom.
    destruct attributes as [|attribute attributes]; [|rewrite Hcustom in Htry];
      cbn [mbind result_bind] in Htry;
      destruct Hoff as [Hoff|Hoff]; rewrite Hoff in Htry;
      try done; by destruct (labels (configuration self)).
Qed.

(** X7. The labels only write keys that start with tags.: in a block built
    without a fault, every other key holds what the custom attributes gave
    it. *)
Theorem get_log_events_common_block_other_keys self common custom key :
  common_block_try (configuration self) = Return common →
  process_custom_attributes
    (application_logging_forwarding_custom_attributes (configuration self)) ∅
    = Return custom →
  (∀ suffix, key ≠ "tags." +:+ suffix) →
  get_log_events_common_block self !! key = custom !! key.
Proof.
  intros Htry Hcustom Hkey. unfold get_log_events_common_block. rewrite Htry.
  apply common_block_try_tags in Htry
    as (custom' & tags & kept & Hcustom' & -> & _ & Htags & _).
  assert (custom' = custom) as -> by congruence.
  apply lookup_union_r.
  by rewrite (label_tags_other_keys _ _ _ _ Htags Hkey).
Qed.

Lemma label_tags_make_label labels tags :
  label_tags (make_label <$> labels) tags = Return (foldl (add_tag []) tags labels).
Proof.
  revert tags. induction labels as [|label labels IH]; intros tags; [done|].
  rewrite fmap_cons. cbn [label_tags foldl].
  rewrite getitem_label_type, getitem_label_value.
  unfold mbind, result_bind, add_tag. cbn [format].
  rewrite bool_decide_eq_false_2 by apply not_elem_of_nil. apply IH.
Qed.

(** The block over labels with string types: the tags the labels add, over
    the custom attributes. *)
Lemma common_block_make_label self typed_labels custom :
  labels (configuration self) = make_label <$> typed_labels →
  application_logging_forwarding_labels_enabled (configuration self) = true →
  process_custom_attributes
    (application_logging_forwarding_custom_attributes (configuration self)) ∅
    = Return custom →
  get_log_events_common_block self =
    foldl (add_tag (application_logging_forwarding_labels_exclude (configuration self)))
      ∅ typed_labels ∪ custom.
Proof.
  intros Hlabels Hen Hcustom.
  unfold get_log_events_common_block, common_block_try.
  rewrite Hlabels, Hen. revert Hcustom.
  generalize (application_logging_forwarding_custom_attributes (configuration self)).
  intros attributes Hcustom.
  assert (match attributes with
          | [] => Return (∅ : gmap string value)
          | _ :: _ =>
              custom_attributes ← process_custom_attributes attributes ∅;
              Return (dict_update ∅ custom_attributes)
          end = Return custom) as Hstage.
  { rewrite Hcustom. destruct attributes; simpl in *.
    - congruence.
    - unfold dict_update. by rewrite (right_id_L ∅ (∪)). }
  destruct attributes as [|attribute attributes]; rewrite Hstage; clear Hstage.
  all: cbn [mbind result_bind].
  all: destruct typed_labels as [|label typed_labels];
    [simpl; by rewrite (left_id_L ∅ (∪))|].
  all: rewrite fmap_cons; cbn [negb].
  all: destruct (application_logging_forwarding_labels_exclude _)
         as [|entry entries].
  all: rewrite <- fmap_cons.
  all: rewrite ?label_tags_make_label, ?label_tags_excluding_make_label.
  all: reflexivity.
Qed.

(** X5. With label forwarding enabled and no exclusion list, every label has
    its tag in the common block, holding the value of a label of that type,
    also when a custom attribute has the same key. *)
Theorem get_log_events_common_block_tags_all self typed_labels custom label :
  labels (configuration self) = make_label <$> typed_labels →
  application_logging_forwarding_labels_enabled (configuration self) = true →
  application_logging_forwarding_labels_exclude (configuration self) = [] →
  process_custom_attributes
    (application_logging_forwarding_custom_attributes (configuration self)) ∅
    = Return custom →
  label ∈ typed_labels →
  ∃ label', label' ∈ typed_labels ∧ label'.1 = label.1 ∧
    get_log_events_common_block self !! ("tags." +:+ label.1)
      = Some (VScalar label'.2).
Proof.
  intros Hlabels Hen Hex Hcustom Hin.
  rewrite (common_block_make_label self typed_labels custom Hlabels Hen Hcustom), Hex.
  destruct (add_tags_lookup_kept [] typed_labels ∅ label Hin)
    as (label' & Hin' & Htype & Hval); [apply not_elem_of_nil|].
  exists label'. split; [done|]. split; [done|].
  by apply lookup_union_Some_l.
Qed.


(** ** Further properties of the session variants *)

Lemma endpoints_sent_app (tr1 tr2 : trace) :
  endpoints_sent (tr1 ++ tr2) = endpoints_sent tr1 ++ endpoints_sent tr2.
Proof. unfold endpoints_sent. apply bind_app. Qed.

(** What a serverless session sends for a submission: nothing, or one
    message that is neither a request for commands nor a deregistration. *)
Lemma perform_serverless req self tr :
  session_cls self = ClsServerlessModeSession →
  (perform req self tr).2 = tr ∨
  ∃ id endpoint payload path,
    (perform req self tr).2 = tr ++ [EvSend id endpoint payload path] ∧
    endpoint ≠ "get_agent_commands" ∧ endpoint ≠ "shutdown".
Proof.
  intros Hcls.
  destruct req as [traces| | | | | | | | | | | | | | | ]; simpl;
    try (right; by eexists _, _, _, _).
  - destruct traces; [by left|]. right. by eexists _, _, _, _.
  - left. unfold get_agent_commands. by rewrite Hcls.
  - left. unfold shutdown_session. by rewrite Hcls.
Qed.

Lemma run_action_serverless a self tr :
  session_cls self = ClsServerlessModeSession → _rpc self = None →
  session_cls (run_action a self tr).1 = ClsServerlessModeSession ∧
  _rpc (run_action a self tr).1 = None ∧
  ∃ added, (run_action a self tr).2 = tr ++ added ∧ channels_created added = 0 ∧
    ("get_agent_commands" ∉ endpoints_sent added) ∧
    ("shutdown" ∉ endpoints_sent added).
Proof.
  intros Hcls Hrpc.
  destruct a as [span_iterator record_metric| |cfg| | |req]; simpl.
  - unfold connect_span_stream. rewrite Hcls. simpl.
    repeat split; try done. exists []. rewrite app_nil_r.
    repeat split; try done; apply not_elem_of_nil.
  - unfold shutdown_span_stream. rewrite Hrpc. simpl.
    repeat split; try done. exists []. rewrite app_nil_r.
    repeat split; try done; apply not_elem_of_nil.
  - repeat split; try done. exists []. rewrite app_nil_r.
    repeat split; try done; apply not_elem_of_nil.
  - repeat split; try done. eexists. split; [reflexivity|].
    repeat split; try done; apply not_elem_of_nil.
  - repeat split; try done. eexists. split; [reflexivity|].
    repeat split; try done; apply not_elem_of_nil.
  - repeat split; try done.
    destruct (perform_serverless req self tr Hcls)
      as [->|(id & endpoint & payload & path & -> & Hcommands & Hshutdown)].
    + exists []. rewrite app_nil_r.
      repeat split; try done; apply not_elem_of_nil.
    + eexists. split; [reflexivity|]. split; [done|].
      split; intros Hin; apply list_elem_of_singleton in Hin; congruence.
Qed.

(** X8. A serverless session never streams and never asks the collector for
    commands or deregisters: over any sequence of calls of its methods, the
    submission methods among them, and of changes of its configuration, its
    channel stays absent, no channel is constructed, and nothing is sent to
    the endpoints get_agent_commands and shutdown. *)
Theorem serverless_session_stays_silent actions self tr :
  session_cls self = ClsServerlessModeSession → _rpc self = None →
  _rpc (run_actions actions self tr).1 = None ∧
  channels_created (run_actions actions self tr).2 = channels_created tr ∧
  ∃ added, (run_actions actions self tr).2 = tr ++ added ∧
    ("get_agent_commands" ∉ endpoints_sent added) ∧
    ("shutdown" ∉ endpoints_sent added).
Proof.
  revert self tr. induction actions as [|a actions IH]; intros self tr Hcls Hrpc; simpl.
  { repeat split; try done. exists []. rewrite app_nil_r.
    repeat split; try done; apply not_elem_of_nil. }
  destruct (run_action_serverless a self tr Hcls Hrpc)
    as (Hcls' & Hrpc' & added & Htr & Hnone & Hcommands & Hshutdown).
  destruct (run_action a self tr) as [self' tr']; simpl in *.
  destruct (IH self' tr' Hcls' Hrpc')
    as (Hfinal & Hcount & added' & Htr' & Hcommands' & Hshutdown').
  split; [done|]. split.
  - rewrite Hcount, Htr, channels_created_app. lia.
  - exists (added ++ added'). split; [by rewrite Htr', Htr, app_assoc|].
    rewrite endpoints_sent_app.
    split; intros Hin; apply elem_of_app in Hin as [Hin|Hin]; done.
Qed.

Lemma run_call_developer_flag_off c self tr :
  session_cls self = ClsDeveloperModeSession → _rpc self = None →
  debug_connect_span_stream_in_developer_mode (configuration self) = false →
  keeps_debug_flag_off c = true →
  session_cls (run_call c self tr).1 = ClsDeveloperModeSession ∧
  _rpc (run_call c self tr).1 = None ∧
  debug_connect_span_stream_in_developer_mode
    (configuration (run_call c self tr).1) = false ∧
  channels_created (run_call c self tr).2 = channels_created tr.
Proof.
  intros Hcls Hrpc Hflag Hkeep.
  destruct c as [span_iterator record_metric| |cfg|traces|info logs| | |]; simpl.
  - unfold connect_span_stream, DeveloperModeSession_connect_span_stream.
    by rewrite Hcls, Hflag.
  - unfold shutdown_span_stream. by rewrite Hrpc.
  - simpl in Hkeep. apply negb_true_iff in Hkeep. done.
  - repeat split; try done. unfold send_transaction_traces.
    destruct traces; count_channels.
  - repeat split; try done. unfold send_log_events. count_channels.
  - repeat split; try done. unfold get_agent_commands. rewrite Hcls. count_channels.
  - repeat split; try done. unfold shutdown_session. rewrite Hcls. count_channels.
  - repeat split; try done. unfold close_connection. count_channels.
Qed.

(** X9. A developer-mode session whose debug flag is off never streams: over
    any sequence of calls that leave the flag off, whatever else the
    configuration becomes, no channel is constructed and none is stored. *)
Theorem developer_session_flag_off_never_streams calls self tr :
  session_cls self = ClsDeveloperModeSession → _rpc self = None →
  debug_connect_span_stream_in_developer_mode (configuration self) = false →
  forallb keeps_debug_flag_off calls = true →
  _rpc (run_calls calls self tr).1 = None ∧
  channels_created (run_calls calls self tr).2 = channels_created tr.
Proof.
  revert self tr.
  induction calls as [|c calls IH]; intros self tr Hcls Hrpc Hflag Hkeep; simpl.
  { done. }
  simpl in Hkeep. apply andb_prop in Hkeep as [Hc Hrest].
  destruct (run_call_developer_flag_off c self tr Hcls Hrpc Hflag Hc)
    as (Hcls' & Hrpc' & Hflag' & Hcount).
  destruct (run_call c self tr) as [self' tr']; simpl in *.
  destruct (IH self' tr' Hcls' Hrpc' Hflag' Hrest) as [Hfinal Hcount'].
  split; [done|]. by rewrite Hcount'.
Qed.

(** ** Further properties of construction *)

Lemma Session__init__returns cls app_name linked_applications environment settings
    tr self tr' :
  Session__init__ cls app_name linked_applications environment settings tr
    = (Return self, tr') →
  ∃ cfg cfg',
    connect_outcome tr (PROTOCOL cls) (CLIENT cls) app_name linked_applications
      environment settings = Return cfg ∧
    self = {| session_cls := cls;
              _protocol := {| protocol_id := length tr;
                              protocol_cls := PROTOCOL cls;
                              protocol_client_cls := CLIENT cls;
                              protocol_configuration := cfg |};
              _otlp_protocol := {| protocol_id := length tr + 1;
                                   protocol_cls := OtlpProtocol;
                                   protocol_client_cls := CLIENT cls;
                                   protocol_configuration := cfg' |};
              _rpc := None |} ∧
    tr' = tr ++ [EvConnect (_protocol self); EvConnect (_otlp_protocol self)].
Proof.
  unfold Session__init__, Protocol_connect. unfold_M.
  destruct (connect_outcome tr _ _ _ _ _ _) as [cfg|e]; [|done].
  destruct (connect_outcome (tr ++ _) _ _ _ _ _ _) as [cfg'|e]; [|done].
  rewrite length_app. simpl. intros [= <- <-].
  exists cfg, cfg'. split; [done|]. split; [done|]. simpl.
  by rewrite <- app_assoc.
Qed.

Lemma filter_keeps_all (id : nat) (open : list nat) :
  (∀ i, i ∈ open → i ≠ id) → filter (λ i, i ≠ id) open = open.
Proof.
  induction open as [|i open IH]; intros Hall; [done|].
  rewrite filter_cons_True by (apply Hall; by left).
  rewrite IH; [done|]. intros j Hj. apply Hall. by right.
Qed.

(** X10. When the primary connect of the variant that [create_session]
    selects raises, [create_session] raises that exception, the OTLP
    protocol is never contacted, and no connection is left open. *)
Theorem create_session_primary_failure gs license_key app_name linked_applications
    environment tr e :
  let cls := if serverless_mode_enabled gs then ClsServerlessModeSession
             else if developer_mode gs then ClsDeveloperModeSession
             else ClsSession in
  connect_outcome tr (PROTOCOL cls) (CLIENT cls) app_name linked_applications
    environment gs = Raise e →
  create_session gs license_key app_name linked_applications environment tr =
    (Raise e, tr ++ [EvConnectFailed (PROTOCOL cls) e]) ∧
  open_connections (tr ++ [EvConnectFailed (PROTOCOL cls) e]) = open_connections tr.
Proof.
  intros cls Hraise. split; [|by rewrite open_connections_app].
  unfold create_session, Session__init__, Protocol_connect. unfold_M.
  subst cls. destruct (serverless_mode_enabled gs); [|destruct (developer_mode gs)];
    by rewrite Hraise.
Qed.

(** X11. A session returned by [create_session] holds two distinct, newly
    connected protocols: the primary one of the protocol class of the mode,
    the OTLP one of the OTLP class, both with the client class of the mode;
    its configuration is the one the primary connect answered, and it has
    no channel. *)
Theorem create_session_returns gs license_key app_name linked_applications
    environment tr self tr' :
  create_session gs license_key app_name linked_applications environment tr
    = (Return self, tr') →
  let client := if serverless_mode_enabled gs then ServerlessModeClient
                else if developer_mode gs then DeveloperModeClient
                else ApplicationModeClient in
  protocol_cls (_protocol self) =
    (if serverless_mode_enabled gs then ServerlessModeProtocol else AgentProtocol) ∧
  protocol_cls (_otlp_protocol self) = OtlpProtocol ∧
  protocol_client_cls (_protocol self) = client ∧
  protocol_client_cls (_otlp_protocol self) = client ∧
  protocol_id (_protocol self) = length tr ∧
  protocol_id (_otlp_protocol self) = length tr + 1 ∧
  connect_outcome tr (protocol_cls (_protocol self)) client app_name
    linked_applications environment gs = Return (configuration self) ∧
  _rpc self = None ∧
  tr' = tr ++ [EvConnect (_protocol self); EvConnect (_otlp_protocol self)].
Proof.
  unfold create_session. simpl. intros Hcreate.
  destruct (serverless_mode_enabled gs); [|destruct (developer_mode gs)];
    apply Session__init__returns in Hcreate as (cfg & cfg' & Hcfg & -> & ->);
    simpl in *; by rewrite Hcfg.
Qed.

(** X12. [close_connection] on a newly constructed session closes the
    primary protocol only: afterwards the OTLP protocol is still open, the
    primary is not, and the connections that were open before the session
    was built are as they were. *)
Theorem close_connection_closes_primary_only cls app_name linked_applications
    environment settings tr self tr' :
  (∀ id, id ∈ open_connections tr → id < length tr) →
  Session__init__ cls app_name linked_applications environment settings tr
    = (Return self, tr') →
  open_connections (close_connection self tr').2 =
    open_connections tr ++ [protocol_id (_otlp_protocol self)] ∧
  (protocol_id (_protocol self) ∉ open_connections (close_connection self tr').2) ∧
  (protocol_id (_otlp_protocol self) ∈ open_connections (close_connection self tr').2).
Proof.
  intros Hfresh Hinit.
  apply Session__init__returns in Hinit as (cfg & cfg' & _ & -> & ->).
  unfold close_connection. unfold_M. simpl.
  assert (open_connections
            ((tr ++ [EvConnect
                       {| protocol_id := length tr; protocol_cls := PROTOCOL cls;
                          protocol_client_cls := CLIENT cls;
                          protocol_configuration := cfg |};
                     EvConnect
                       {| protocol_id := length tr + 1; protocol_cls := OtlpProtocol;
                          protocol_client_cls := CLIENT cls;
                          protocol_configuration := cfg' |}])
             ++ [EvCloseConnection (length tr)])
          = open_connections tr ++ [length tr + 1]) as ->.
  { rewrite !open_connections_app. simpl.
    rewrite !filter_app, filter_keeps_all.
    2: { intros i Hi. apply Hfresh in Hi. lia. }
    rewrite filter_cons_False, filter_nil by (intros Hne; by apply Hne).
    rewrite filter_cons_True, filter_nil by lia.
    by rewrite app_nil_r. }
  split; [done|]. split.
  - intros Hin. apply elem_of_app in Hin as [Hin|Hin].
    + apply Hfresh in Hin. lia.
    + apply list_elem_of_singleton in Hin. lia.
  - apply elem_of_app. right. by apply list_elem_of_singleton.
Qed.

(** ** Further properties of the submission methods *)

Lemma app_singleton_neq (tr : trace) (e : event) : tr ≠ tr ++ [e].
Proof.
  intros Heq. apply (f_equal length) in Heq. rewrite length_app in Heq.
  simpl in Heq. lia.
Qed.

(** X13. The ML events go to the OTLP protocol, to the endpoint
    ml_event_data at the path /v1/logs, as the encoder's payload of the
    events and the run id; the dimensional metrics go to the OTLP protocol,
    to dimensional_metric_data at /v1/metrics, as the encoder's payload.
    Every other submission makes no call to the OTLP protocol: it sends one
    message to the primary protocol, without a path, and returns its answer,
    or sends nothing, which happens only for an empty list of transaction
    traces and for the agent commands and the shutdown of a serverless
    session. *)
Theorem perform_routing req self tr :
  (∀ sampling_info custom_event_data,
     req = ReqMlEvents sampling_info custom_event_data →
     let payload := encode_ml_event_data custom_event_data
                      (format (agent_run_id (configuration self))) in
     perform req self tr =
       (send_outcome tr (_otlp_protocol self) "ml_event_data" payload
          (Some "/v1/logs"),
        tr ++ [EvSend (protocol_id (_otlp_protocol self)) "ml_event_data" payload
                 (Some "/v1/logs")])) ∧
  (∀ start_time end_time metric_data,
     req = ReqDimensionalMetricData start_time end_time metric_data →
     let payload := encode_metric_data metric_data start_time end_time in
     perform req self tr =
       (send_outcome tr (_otlp_protocol self) "dimensional_metric_data" payload
          (Some "/v1/metrics"),
        tr ++ [EvSend (protocol_id (_otlp_protocol self)) "dimensional_metric_data"
                 payload (Some "/v1/metrics")])) ∧
  ((∀ sampling_info custom_event_data,
      req ≠ ReqMlEvents sampling_info custom_event_data) →
   (∀ start_time end_time metric_data,
      req ≠ ReqDimensionalMetricData start_time end_time metric_data) →
   ((perform req self tr).2 = tr ∧
    (req = ReqTransactionTraces [] ∨
     (session_cls self = ClsServerlessModeSession ∧
      (req = ReqGetAgentCommands ∨ req = ReqShutdownSession)))) ∨
   (∃ endpoint payload,
      perform req self tr =
        (send_outcome tr (_protocol self) endpoint payload None,
         tr ++ [EvSend (protocol_id (_protocol self)) endpoint payload None]) ∧
      endpoint ≠ "ml_event_data" ∧ endpoint ≠ "dimensional_metric_data")).
Proof.
  split; [by intros sampling_info custom_event_data ->|].
  split; [by intros start_time end_time metric_data ->|].
  intros Hml Hmetrics.
  destruct req as [traces| | | | | | | | | | | | | | | ]; simpl.
  - destruct traces as [|first rest]; [left; split; [done|by left]|].
    right. by eexists _, _.
  - right. by eexists _, _.
  - right. by eexists _, _.
  - by destruct (Hml sampling_info custom_event_data).
  - right. by eexists _, _.
  - right. by eexists _, _.
  - by destruct (Hmetrics start_time end_time metric_data).
  - right. by eexists _, _.
  - unfold get_agent_commands. destruct (session_cls self) eqn:Hcls.
    + right. by eexists _, _.
    + right. by eexists _, _.
    + left. split; [done|]. right. split; [done|by left].
  - right. by eexists _, _.
  - right. by eexists _, _.
  - right. by eexists _, _.
  - right. by eexists _, _.
  - right. by eexists _, _.
  - right. by eexists _, _.
  - unfold shutdown_session. destruct (session_cls self) eqn:Hcls.
    + right. by eexists _, _.
    + right. by eexists _, _.
    + left. split; [done|]. right. split; [done|by right].
Qed.

Ltac single_send H :=
  apply app_inv_head in H; injection H as <- <- <-;
  first [congruence | by eexists].

(** X14. Whatever a submission method sends to the primary protocol starts
    with the agent run id, except at the three endpoints sql_trace_data,
    update_loaded_modules and log_event_data. *)
Theorem perform_payload_starts_with_run_id req self tr id endpoint payload :
  (perform req self tr).2 = tr ++ [EvSend id endpoint payload None] →
  endpoint ≠ "sql_trace_data" →
  endpoint ≠ "update_loaded_modules" →
  endpoint ≠ "log_event_data" →
  ∃ rest, payload = VTuple (VScalar (agent_run_id (configuration self)) :: rest).
Proof.
  intros Hsent Hsql Hmodules Hlogs.
  destruct req as [traces| | | | | | | | | | | | | | | ]; simpl in Hsent.
  - destruct traces as [|first rest]; simpl in Hsent.
    + by apply app_singleton_neq in Hsent.
    + single_send Hsent.
  - single_send Hsent.
  - single_send Hsent.
  - apply app_inv_head in Hsent. done.
  - single_send Hsent.
  - single_send Hsent.
  - apply app_inv_head in Hsent. done.
  - unfold send_log_events, Protocol_send in Hsent. simpl in Hsent.
    apply app_inv_head in Hsent. injection Hsent as <- <- <-. done.
  - unfold get_agent_commands in Hsent.
    destruct (session_cls self); simpl in Hsent;
      first [by apply app_singleton_neq in Hsent | single_send Hsent].
  - single_send Hsent.
  - single_send Hsent.
  - single_send Hsent.
  - single_send Hsent.
  - single_send Hsent.
  - single_send Hsent.
  - unfold shutdown_session in Hsent.
    destruct (session_cls self); simpl in Hsent;
      first [by apply app_singleton_neq in Hsent | single_send Hsent].
Qed.

(** X15. When [connect_span_stream] returns a channel, the session is a
    default session that had none, the configuration enables the span
    stream, and the channel returned is the one stored on the session, built
    from the configuration and connected once; [shutdown_span_stream] then
    closes that channel. *)
Theorem connect_span_stream_returned_channel self span_iterator record_metric tr
    rpc self' tr' :
  connect_span_stream self span_iterator record_metric tr
    = (Return (Some rpc, self'), tr') →
  session_cls self = ClsSession ∧ _rpc self = None ∧
  span_stream_enabled (configuration self) = true ∧
  rpc = new_channel (configuration self) span_iterator record_metric tr ∧
  self' = set_rpc rpc self ∧
  tr' = tr ++ [EvRpcNew rpc; EvRpcConnect (rpc_id rpc)] ∧
  shutdown_span_stream self' tr' =
    (Return tt, tr ++ [EvRpcNew rpc; EvRpcConnect (rpc_id rpc);
                       EvRpcClose (rpc_id rpc)]).
Proof.
  intros Hconnect.
  assert (_rpc self = None) as Hnone.
  { destruct (_rpc self) as [stored|] eqn:Hstored; [|done].
    by rewrite (connect_span_stream_stored self stored) in Hconnect. }
  assert (span_stream_enabled (configuration self) = true) as Hen.
  { destruct (span_stream_enabled (configuration self)) eqn:Hen; [done|].
    by rewrite connect_span_stream_disabled in Hconnect. }
  assert (session_cls self = ClsSession) as Hcls.
  { revert Hconnect.
    unfold connect_span_stream, DeveloperModeSession_connect_span_stream,
      ServerlessModeSession_connect_span_stream.
    destruct (session_cls self); [done| |done].
    destruct (debug_connect_span_stream_in_developer_mode _); [|done].
    unfold mbind, M_bind.
    by rewrite Session_connect_span_stream_creates. }
  unfold connect_span_stream in Hconnect. rewrite Hcls in Hconnect.
  rewrite Session_connect_span_stream_creates in Hconnect by done.
  injection Hconnect as <- <- <-.
  repeat split; try done.
  unfold shutdown_span_stream, StreamingRpc_close, emit. simpl.
  by rewrite <- app_assoc.
Qed.

Lemma perform_events req self tr :
  (perform req self tr).2 = tr ∨
  ∃ id endpoint payload path,
    (perform req self tr).2 = tr ++ [EvSend id endpoint payload path].
Proof.
  destruct req as [traces| | | | | | | | | | | | | | | ]; simpl;
    try (right; by eexists _, _, _, _).
  - destruct traces; [by left|]. right. by eexists _, _, _, _.
  - unfold get_agent_commands. destruct (session_cls self);
      first [by left | right; by eexists _, _, _, _].
  - unfold shutdown_session. destruct (session_cls self);
      first [by left | right; by eexists _, _, _, _].
Qed.

(** X16. When the guarded block of the common-block builder raises,
    [send_log_events] still submits: it sends the dict that holds the log
    records alone, and returns what the protocol answers. *)
Theorem send_log_events_after_fault self sampling_info log_event_data tr e :
  common_block_try (configuration self) = Raise e →
  let payload : value :=
    VTuple [VDict {["logs" := VTuple (_asdict <$> log_event_data)]}] in
  send_log_events self sampling_info log_event_data tr =
    (send_outcome tr (_protocol self) "log_event_data" payload None,
     tr ++ [EvSend (protocol_id (_protocol self)) "log_event_data" payload None]).
Proof.
  intros Hfault. unfold send_log_events, get_log_events_common_block.
  by rewrite Hfault.
Qed.

(** X17. No submission method touches the span stream or the connections:
    after it the trace holds as many channel constructions and the same open
    connections as before. *)
Theorem perform_leaves_stream_and_connections req self tr :
  channels_created (perform req self tr).2 = channels_created tr ∧
  open_connections (perform req self tr).2 = open_connections tr.
Proof.
  destruct (perform_events req self tr) as [->|(id & endpoint & payload & path & ->)];
    [done|].
  split.
  - rewrite channels_created_app, channels_created_cons. simpl.
    unfold channels_created. simpl. lia.
  - by rewrite open_connections_app.
Qed.

End DataCollector.

(** * The properties at sample objects *)

(** The label type team and the exclusion entry TEAM are ASCII text, so
    what follows holds whatever [str.lower] answers on other text. *)
Lemma upper_case_exclusion_any_lower (unicode_lower : string → string) :
  let cfg := sample_settings_with false false SNone [] ["TEAM"]
               [make_label ("team", SStr "core")] in
  let common := get_log_events_common_block sample_process_user_attribute 128
                  unicode_lower (sample_session ClsSession cfg) in
  same_ignoring_case unicode_lower "team" "TEAM" ∧
  common !! "tags.team" = Some (VScalar (SStr "core")).
Proof. split; vm_compute; reflexivity. Qed.

(** The claim of C7 fails when an exclusion entry is not in lower case: the
    label type team matches the entry TEAM when case is ignored, and its tag
    is in the common block all the same. *)
Lemma upper_case_exclusion_keeps_tag :
  let cfg := sample_settings_with false false SNone [] ["TEAM"]
               [make_label ("team", SStr "core")] in
  let common := get_log_events_common_block sample_process_user_attribute 128
                  sample_unicode_lower (sample_session ClsSession cfg) in
  labels cfg = [make_label ("team", SStr "core")] ∧
  "TEAM" ∈ application_logging_forwarding_labels_exclude cfg ∧
  same_ignoring_case sample_unicode_lower "team" "TEAM" ∧
  common !! "tags.team" = Some (VScalar (SStr "core")).
Proof.
  split; [reflexivity|]. split; [by left|].
  exact (upper_case_exclusion_any_lower sample_unicode_lower).
Qed.

(** C1 at settings with both modes enabled: the serverless session is built. *)
Lemma create_session_selects_variant_witness :
  let gs := sample_settings_with true true SNone [] [] [] in
  serverless_mode_enabled gs = true ∧ developer_mode gs = true ∧
  create_session sample_connect_outcome gs (SStr "license") "app" [] (VDict ∅) [] =
    Session__init__ sample_connect_outcome ClsServerlessModeSession "app" []
      (VDict ∅) gs [].
Proof.
  split; [reflexivity|]. split; [reflexivity|].
  apply (proj1 (create_session_selects_variant sample_connect_outcome
                  (sample_settings_with true true SNone [] [] [])
                  (SStr "license") "app" [] (VDict ∅) [])).
  reflexivity.
Defined.

(** C2 on a default session: three attempts to connect, with a shutdown and
    a change of configuration between them, construct one channel at most. *)
Lemma connect_span_stream_at_most_one_channel_witness :
  let self := sample_session ClsSession sample_settings in
  let calls := [CallConnectSpanStream 7 8; CallConnectSpanStream 9 10;
                CallShutdownSpanStream;
                CallSetConfiguration
                  (sample_settings_with false false (SStr "other.example") [] [] []);
                CallConnectSpanStream 11 12] in
  _rpc self = None ∧
  channels_created
    (run_calls sample_send_outcome sample_process_user_attribute 128 sample_unicode_lower calls self []).2
    ≤ channels_created [] + 1.
Proof.
  split; [reflexivity|].
  apply (proj1 (proj2 (connect_span_stream_at_most_one_channel sample_send_outcome
                         sample_process_user_attribute 128 sample_unicode_lower))).
  reflexivity.
Defined.

(** C3 on a default session whose trace-observer host is unset. *)
Lemma connect_span_stream_not_enabled_witness :
  let self := sample_session ClsSession
                (sample_settings_with false false SNone [] [] []) in
  truthy (infinite_tracing_trace_observer_host (configuration self)) = false ∧
  connect_span_stream self 7 8 [] = (Return (None, self), []).
Proof.
  split; [reflexivity|].
  apply (connect_span_stream_not_enabled
           (sample_session ClsSession (sample_settings_with false false SNone [] [] []))
           7 8 []).
  left. reflexivity.
Defined.

(** C5, amended, on a session that holds a channel. *)
Lemma shutdown_span_stream_keeps_channel_witness :
  let rpc := new_channel sample_settings 7 8 [] in
  let self := set_rpc rpc (sample_session ClsSession sample_settings) in
  _rpc self = Some rpc ∧
  shutdown_span_stream self [EvRpcNew rpc; EvRpcConnect 0] =
    (Return tt, [EvRpcNew rpc; EvRpcConnect 0] ++ [EvRpcClose (rpc_id rpc)]).
Proof.
  split; [reflexivity|].
  apply (proj1 (shutdown_span_stream_keeps_channel sample_send_outcome
                  sample_process_user_attribute 128 sample_unicode_lower
                  (set_rpc (new_channel sample_settings 7 8 [])
                     (sample_session ClsSession sample_settings))
                  [EvRpcNew (new_channel sample_settings 7 8 []); EvRpcConnect 0])
               (new_channel sample_settings 7 8 [])).
  reflexivity.
Defined.

(** C6 with one trace. *)
Lemma send_transaction_traces_spec_witness :
  let self := sample_session ClsSession sample_settings in
  let traces := [VScalar (SStr "slowest")] in
  let payload := VTuple [VScalar (SStr "run-1"); VList traces] in
  traces ≠ [] ∧
  send_transaction_traces sample_send_outcome self traces [] =
    (Return (VScalar SNone), [EvSend 0 "transaction_sample_data" payload None]).
Proof.
  split; [discriminate|].
  apply (proj2 (send_transaction_traces_spec sample_send_outcome
                  (sample_session ClsSession sample_settings) [])
               [VScalar (SStr "slowest")]).
  discriminate.
Defined.

(** C7, amended, with the entry team excluded and the labels TEAM and env:
    the tag of TEAM is absent. *)
Lemma get_log_events_common_block_exclusion_witness :
  let typed_labels := [("TEAM", SStr "core"); ("env", SStr "prod")] in
  let cfg := sample_settings_with false false SNone [] ["team"]
               (make_label <$> typed_labels) in
  let self := sample_session ClsSession cfg in
  lower sample_unicode_lower "TEAM" ∈ application_logging_forwarding_labels_exclude cfg ∧
  get_log_events_common_block sample_process_user_attribute 128 sample_unicode_lower self !! "tags.TEAM"
    = (∅ : gmap string value) !! "tags.TEAM".
Proof.
  split; [by left|].
  apply (proj1 (get_log_events_common_block_exclusion sample_process_user_attribute 128 sample_unicode_lower
                  (sample_session ClsSession
                     (sample_settings_with false false SNone [] ["team"]
                        (make_label <$> [("TEAM", SStr "core"); ("env", SStr "prod")])))
                  [("TEAM", SStr "core"); ("env", SStr "prod")] ∅
                  eq_refl ltac:(discriminate) eq_refl ltac:(discriminate) eq_refl)
               ("TEAM", SStr "core")).
  - by left.
  - by left.
Defined.

(** C8 with one custom attribute accepted and a label that has no value: the
    guarded block raises after the attribute was merged, and the method
    returns the empty dict. *)
Lemma get_log_events_common_block_never_raises_witness :
  let cfg := sample_settings_with false false SNone
               [(VScalar (SStr "team"), VScalar (SStr "core"))] []
               [{["label_type" := SStr "env"]}] in
  let self := sample_session ClsSession cfg in
  common_block_try sample_process_user_attribute 128 sample_unicode_lower (configuration self)
    = Raise (KeyError "label_value") ∧
  get_log_events_common_block sample_process_user_attribute 128 sample_unicode_lower self = ∅.
Proof.
  split; [reflexivity|].
  apply (proj1 (get_log_events_common_block_never_raises
                  sample_process_user_attribute 128 sample_unicode_lower
                  (sample_session ClsSession
                     (sample_settings_with false false SNone
                        [(VScalar (SStr "team"), VScalar (SStr "core"))] []
                        [{["label_type" := SStr "env"]}])))
               (KeyError "label_value")).
  reflexivity.
Defined.

(** C10 with an OTLP connect that raises. *)
Lemma Session__init__otlp_failure_witness :
  let e := CollaboratorError "otlp connect failed" in
  let primary := {| protocol_id := 0; protocol_cls := AgentProtocol;
                    protocol_client_cls := ApplicationModeClient;
                    protocol_configuration := sample_settings |} in
  Session__init__ otlp_failing_connect_outcome ClsSession "app" [] (VDict ∅)
    sample_settings [] =
    (Raise e, [EvConnect primary; EvConnectFailed OtlpProtocol e]) ∧
  open_connections [EvConnect primary; EvConnectFailed OtlpProtocol e] = [0].
Proof.
  pose proof (Session__init__otlp_failure otlp_failing_connect_outcome ClsSession
                "app" [] (VDict ∅) sample_settings [] sample_settings
                (CollaboratorError "otlp connect failed") eq_refl eq_refl)
    as (Hinit & Hopen & _).
  split; [exact Hinit|exact Hopen].
Defined.

(** ** The methods run on sample objects *)

Example lower_mixed_case (unicode_lower : string → string) :
  lower unicode_lower "TeAm-1" = "team-1".
Proof. reflexivity. Qed.

(** On text that is not ASCII the builtin decides. *)
Example lower_not_ascii (unicode_lower : string → string) :
  lower unicode_lower "ÉQUIPE" = unicode_lower "ÉQUIPE".
Proof. reflexivity. Qed.

(** A label type that is not ASCII is excluded as the builtin lower-cases
    it: with ÉQUIPE lower-cased to équipe and the entry équipe excluded, the
    tag is omitted. *)
Example non_ascii_label_type_excluded (unicode_lower : string → string) :
  unicode_lower "ÉQUIPE" = "équipe" →
  let cfg := sample_settings_with false false SNone [] ["équipe"]
               [make_label ("ÉQUIPE", SStr "core")] in
  get_log_events_common_block sample_process_user_attribute 128 unicode_lower
    (sample_session ClsSession cfg) = ∅.
Proof.
  intros Hlower cfg.
  rewrite (common_block_make_label sample_process_user_attribute 128 unicode_lower
             (sample_session ClsSession cfg) [("ÉQUIPE", SStr "core")] ∅
             eq_refl eq_refl eq_refl).
  cbn [foldl]. unfold add_tag. cbn [fst snd].
  assert (lower unicode_lower "ÉQUIPE" = "équipe") as -> by exact Hlower.
  rewrite bool_decide_eq_true_2 by (by left).
  by rewrite (left_id_L ∅ (∪)).
Qed.

Example endpoint_of_sample_settings :
  rpc_endpoint (new_channel sample_settings 7 8 []) = "observer.example:443".
Proof. reflexivity. Qed.

(** A default session returns the channel on the first call and nothing on
    the second. *)
Example connect_twice_on_default_session :
  let self := sample_session ClsSession sample_settings in
  let rpc := new_channel sample_settings 7 8 [] in
  connect_span_stream self 7 8 [] =
    (Return (Some rpc, set_rpc rpc self), [EvRpcNew rpc; EvRpcConnect 0]) ∧
  connect_span_stream (set_rpc rpc self) 9 10 [EvRpcNew rpc; EvRpcConnect 0] =
    (Return (None, set_rpc rpc self), [EvRpcNew rpc; EvRpcConnect 0]).
Proof. split; reflexivity. Qed.

(** A serverless session never opens a channel and answers no commands
    without a send. *)
Example serverless_session_overrides :
  let self := sample_session ClsServerlessModeSession sample_settings in
  connect_span_stream self 7 8 [] = (Return (None, self), []) ∧
  get_agent_commands sample_send_outcome self [] = (Return (VTuple []), []) ∧
  shutdown_session sample_send_outcome self [] = (Return (VScalar SNone), []).
Proof. repeat split; reflexivity. Qed.

(** With the bound at two, the third accepted attribute is dropped. *)
Example custom_attributes_bounded :
  let attributes := [(VScalar (SStr "a"), VScalar (SInt 1));
                     (VScalar (SInt 5), VScalar (SInt 2));
                     (VScalar (SStr "b"), VScalar (SInt 3));
                     (VScalar (SStr "c"), VScalar (SInt 4))] in
  let self := sample_session ClsSession
                (sample_settings_with false false SNone attributes [] []) in
  get_log_events_common_block sample_process_user_attribute 2 sample_unicode_lower self =
    {["a" := VScalar (SInt 1); "b" := VScalar (SInt 3)]}.
Proof. vm_compute. reflexivity. Qed.

(** With the entry team excluded, the label TEAM is omitted and env stays. *)
Example lower_case_exclusion_omits_tag :
  let cfg := sample_settings_with false false SNone [] ["team"]
               [make_label ("TEAM", SStr "core"); make_label ("env", SStr "prod")] in
  get_log_events_common_block sample_process_user_attribute 128 sample_unicode_lower
    (sample_session ClsSession cfg) = {["tags.env" := VScalar (SStr "prod")]}.
Proof. vm_compute. reflexivity. Qed.

(** A non-string label type passes when nothing is excluded and raises in
    the exclusion branch. *)
Example integer_label_type :
  let label : gmap string scalar :=
    {["label_type" := SInt 7; "label_value" := SStr "seven"]} in
  get_log_events_common_block sample_process_user_attribute 128 sample_unicode_lower
    (sample_session ClsSession (sample_settings_with false false SNone [] [] [label]))
    = {["tags.7" := VScalar (SStr "seven")]} ∧
  common_block_try sample_process_user_attribute 128 sample_unicode_lower
    (sample_settings_with false false SNone [] ["team"] [label])
    = Raise (AttributeError "lower").
Proof. split; vm_compute; reflexivity. Qed.

(** The payload of a log submission with an empty and with a non-empty
    common block. *)
Example send_log_events_sample :
  let record : namedtuple := [("message", VScalar (SStr "started"))] in
  let logs := VTuple [VDict {["message" := VScalar (SStr "started")]}] in
  let tagged := sample_settings_with false false SNone [] []
                  [make_label ("env", SStr "prod")] in
  (send_log_events sample_send_outcome sample_process_user_attribute 128 sample_unicode_lower
     (sample_session ClsSession sample_settings) (VScalar SNone) [record] []).2
    = [EvSend 0 "log_event_data" (VTuple [VDict {["logs" := logs]}]) None] ∧
  (send_log_events sample_send_outcome sample_process_user_attribute 128 sample_unicode_lower
     (sample_session ClsSession tagged) (VScalar SNone) [record] []).2
    = [EvSend 0 "log_event_data"
         (VTuple [VDict {["logs" := logs;
                          "common" := VDict {["attributes" :=
                             VDict {["tags.env" := VScalar (SStr "prod")]}]}]}])
         None].
Proof. split; vm_compute; reflexivity. Qed.

(** ** The further properties at sample objects *)

Lemma get_log_events_common_block_provenance_witness :
  let self := sample_session ClsSession tagged_settings in
  get_log_events_common_block sample_process_user_attribute 128 sample_unicode_lower self !! "team"
    = Some (VScalar (SStr "core")) ∧
  ((∃ name attr_value,
      (name, attr_value) ∈
        application_logging_forwarding_custom_attributes (configuration self) ∧
      sample_process_user_attribute name attr_value
        = Return (Some "team", VScalar (SStr "core"))) ∨
   (∃ label label_type label_value,
      label ∈ labels (configuration self) ∧
      label !! "label_type" = Some label_type ∧
      label !! "label_value" = Some label_value ∧
      "team" = "tags." +:+ format label_type ∧
      VScalar (SStr "core") = VScalar label_value)).
Proof.
  split; [reflexivity|].
  apply (get_log_events_common_block_provenance sample_process_user_attribute 128 sample_unicode_lower
           (sample_session ClsSession tagged_settings) "team"
           (VScalar (SStr "core"))).
  reflexivity.
Defined.

Lemma get_log_events_common_block_keeps_accepted_witness :
  let self := sample_session ClsSession tagged_settings in
  length (application_logging_forwarding_custom_attributes (configuration self))
    ≤ 128 ∧
  is_Some (get_log_events_common_block sample_process_user_attribute 128 sample_unicode_lower self
             !! "team").
Proof.
  split; [simpl; lia|].
  apply (get_log_events_common_block_keeps_accepted sample_process_user_attribute 128 sample_unicode_lower
           (sample_session ClsSession tagged_settings)
           {["team" := VScalar (SStr "core");
             "tags.env" := VScalar (SStr "staging")]}
           (VScalar (SStr "team")) (VScalar (SStr "core")) "team"
           (VScalar (SStr "core"))).
  - simpl. lia.
  - vm_compute. reflexivity.
  - by left.
  - reflexivity.
Defined.

Lemma get_log_events_common_block_labels_off_witness :
  let self := sample_session ClsSession
                (sample_settings_with false false SNone
                   [(VScalar (SStr "team"), VScalar (SStr "core"))] ["team"] []) in
  labels (configuration self) = [] ∧
  get_log_events_common_block sample_process_user_attribute 128 sample_unicode_lower self =
    match process_custom_attributes sample_process_user_attribute 128
            (application_logging_forwarding_custom_attributes (configuration self)) ∅
    with
    | Return custom_attributes => custom_attributes
    | Raise _ => ∅
    end.
Proof.
  split; [reflexivity|].
  apply (get_log_events_common_block_labels_off sample_process_user_attribute 128 sample_unicode_lower
           (sample_session ClsSession
              (sample_settings_with false false SNone
                 [(VScalar (SStr "team"), VScalar (SStr "core"))] ["team"] []))).
  left. reflexivity.
Defined.

Lemma get_log_events_common_block_tags_all_witness :
  let typed_labels := [("env", SStr "prod"); ("region", SStr "eu")] in
  let self := sample_session ClsSession
                (sample_settings_with false false SNone
                   [(VScalar (SStr "tags.env"), VScalar (SStr "custom"))] []
                   (make_label <$> typed_labels)) in
  application_logging_forwarding_labels_exclude (configuration self) = [] ∧
  ∃ label', label' ∈ typed_labels ∧ label'.1 = "env" ∧
    get_log_events_common_block sample_process_user_attribute 128 sample_unicode_lower self
      !! ("tags." +:+ "env") = Some (VScalar label'.2).
Proof.
  split; [reflexivity|].
  apply (get_log_events_common_block_tags_all sample_process_user_attribute 128 sample_unicode_lower
           (sample_session ClsSession
              (sample_settings_with false false SNone
                 [(VScalar (SStr "tags.env"), VScalar (SStr "custom"))] []
                 (make_label <$> [("env", SStr "prod"); ("region", SStr "eu")])))
           [("env", SStr "prod"); ("region", SStr "eu")]
           {["tags.env" := VScalar (SStr "custom")]}
           ("env", SStr "prod")).
  - reflexivity.
  - reflexivity.
  - reflexivity.
  - vm_compute. reflexivity.
  - by left.
Defined.


Lemma get_log_events_common_block_other_keys_witness :
  let self := sample_session ClsSession tagged_settings in
  (∀ suffix, "team" ≠ "tags." +:+ suffix) ∧
  get_log_events_common_block sample_process_user_attribute 128 sample_unicode_lower self !! "team"
    = ({["team" := VScalar (SStr "core")]} : gmap string value) !! "team".
Proof.
  split; [intros suffix Heq; cbv in Heq; discriminate Heq|].
  apply (get_log_events_common_block_other_keys sample_process_user_attribute 128 sample_unicode_lower
           (sample_session ClsSession tagged_settings)
           {["team" := VScalar (SStr "core");
             "tags.env" := VScalar (SStr "staging")]}
           {["team" := VScalar (SStr "core")]} "team").
  - vm_compute. reflexivity.
  - vm_compute. reflexivity.
  - intros suffix Heq. cbv in Heq. discriminate Heq.
Defined.

(** X8 on a serverless session that is asked for commands, submits metrics
    and errors, and is shut down: the metrics and the errors are sent, the
    request for commands and the deregistration are not. *)
Lemma serverless_session_stays_silent_witness :
  let self := sample_session ClsServerlessModeSession sample_settings in
  let actions := [ActConnectSpanStream 7 8; ActPerform ReqGetAgentCommands;
                  ActPerform (ReqMetricData (VScalar (SInt 1)) (VScalar (SInt 2))
                                (VList []));
                  ActPerform (ReqErrors (VList [])); ActPerform ReqShutdownSession;
                  ActShutdownSpanStream; ActCloseConnection] in
  let run := run_actions sample_send_outcome sample_process_user_attribute 128
               sample_unicode_lower sample_encode_ml_event_data
               sample_encode_metric_data sample_finalize_outcome actions self [] in
  session_cls self = ClsServerlessModeSession ∧ _rpc self = None ∧
  endpoints_sent run.2 = ["metric_data"; "error_data"] ∧
  (_rpc run.1 = None ∧
   channels_created run.2 = channels_created [] ∧
   ∃ added, run.2 = [] ++ added ∧
     ("get_agent_commands" ∉ endpoints_sent added) ∧
     ("shutdown" ∉ endpoints_sent added)).
Proof.
  split; [reflexivity|]. split; [reflexivity|]. split; [reflexivity|].
  apply (serverless_session_stays_silent sample_send_outcome
           sample_process_user_attribute 128 sample_unicode_lower
           sample_encode_ml_event_data sample_encode_metric_data
           sample_finalize_outcome
           [ActConnectSpanStream 7 8; ActPerform ReqGetAgentCommands;
            ActPerform (ReqMetricData (VScalar (SInt 1)) (VScalar (SInt 2))
                          (VList []));
            ActPerform (ReqErrors (VList [])); ActPerform ReqShutdownSession;
            ActShutdownSpanStream; ActCloseConnection]
           (sample_session ClsServerlessModeSession sample_settings) []
           eq_refl eq_refl).
Defined.

Lemma developer_session_flag_off_never_streams_witness :
  let self := sample_session ClsDeveloperModeSession
                (with_debug_flag false sample_settings) in
  let calls := [CallConnectSpanStream 7 8;
                CallSetConfiguration
                  (with_debug_flag false
                     (sample_settings_with false true (SStr "other.example") [] [] []));
                CallConnectSpanStream 9 10] in
  debug_connect_span_stream_in_developer_mode (configuration self) = false ∧
  forallb keeps_debug_flag_off calls = true ∧
  channels_created
    (run_calls sample_send_outcome sample_process_user_attribute 128 sample_unicode_lower calls self []).2
    = channels_created [].
Proof.
  split; [reflexivity|]. split; [reflexivity|].
  apply (proj2 (developer_session_flag_off_never_streams sample_send_outcome
                  sample_process_user_attribute 128 sample_unicode_lower
                  [CallConnectSpanStream 7 8;
                   CallSetConfiguration
                     (with_debug_flag false
                        (sample_settings_with false true (SStr "other.example")
                           [] [] []));
                   CallConnectSpanStream 9 10]
                  (sample_session ClsDeveloperModeSession
                     (with_debug_flag false sample_settings)) []
                  eq_refl eq_refl eq_refl eq_refl)).
Defined.

Lemma create_session_primary_failure_witness :
  let e := CollaboratorError "connect failed" in
  primary_failing_connect_outcome [] AgentProtocol ApplicationModeClient "app" []
    (VDict ∅) sample_settings = Raise e ∧
  create_session primary_failing_connect_outcome sample_settings (SStr "license")
    "app" [] (VDict ∅) [] = (Raise e, [] ++ [EvConnectFailed AgentProtocol e]).
Proof.
  split; [reflexivity|].
  apply (proj1 (create_session_primary_failure primary_failing_connect_outcome
                  sample_settings (SStr "license") "app" [] (VDict ∅) []
                  (CollaboratorError "connect failed") eq_refl)).
Defined.

Lemma create_session_returns_witness :
  let gs := sample_settings_with false true SNone [] [] [] in
  let self := sample_session ClsDeveloperModeSession gs in
  create_session sample_connect_outcome gs (SStr "license") "app" [] (VDict ∅) []
    = (Return self, [EvConnect (_protocol self); EvConnect (_otlp_protocol self)]) ∧
  protocol_cls (_protocol self) = AgentProtocol.
Proof.
  split; [reflexivity|].
  apply (proj1 (create_session_returns sample_connect_outcome
                  (sample_settings_with false true SNone [] [] [])
                  (SStr "license") "app" [] (VDict ∅) []
                  (sample_session ClsDeveloperModeSession
                     (sample_settings_with false true SNone [] [] []))
                  [EvConnect (_protocol (sample_session ClsDeveloperModeSession
                     (sample_settings_with false true SNone [] [] [])));
                   EvConnect (_otlp_protocol (sample_session ClsDeveloperModeSession
                     (sample_settings_with false true SNone [] [] [])))]
                  eq_refl)).
Defined.

Lemma close_connection_closes_primary_only_witness :
  let self := sample_session ClsSession sample_settings in
  let tr' := [EvConnect (_protocol self); EvConnect (_otlp_protocol self)] in
  Session__init__ sample_connect_outcome ClsSession "app" [] (VDict ∅)
    sample_settings [] = (Return self, tr') ∧
  open_connections (close_connection self tr').2 = open_connections [] ++ [1].
Proof.
  split; [reflexivity|].
  apply (proj1 (close_connection_closes_primary_only sample_connect_outcome
                  ClsSession "app" [] (VDict ∅) sample_settings []
                  (sample_session ClsSession sample_settings)
                  [EvConnect (_protocol (sample_session ClsSession sample_settings));
                   EvConnect (_otlp_protocol
                                (sample_session ClsSession sample_settings))]
                  (λ id Hin, False_ind _ (proj1 (elem_of_nil id) Hin))
                  eq_refl)).
Defined.

Lemma perform_payload_starts_with_run_id_witness :
  let self := sample_session ClsSession sample_settings in
  let payload := VTuple [VScalar (SStr "run-1"); VList []] in
  (perform sample_send_outcome sample_process_user_attribute 128 sample_unicode_lower
     sample_encode_ml_event_data sample_encode_metric_data
     (ReqErrors (VList [])) self []).2 = [] ++ [EvSend 0 "error_data" payload None] ∧
  ∃ rest, payload = VTuple (VScalar (agent_run_id (configuration self)) :: rest).
Proof.
  split; [reflexivity|].
  apply (perform_payload_starts_with_run_id sample_send_outcome
           sample_process_user_attribute 128 sample_unicode_lower sample_encode_ml_event_data
           sample_encode_metric_data (ReqErrors (VList []))
           (sample_session ClsSession sample_settings) [] 0 "error_data"
           (VTuple [VScalar (SStr "run-1"); VList []])).
  - reflexivity.
  - discriminate.
  - discriminate.
  - discriminate.
Defined.

Lemma connect_span_stream_returned_channel_witness :
  let self := sample_session ClsSession sample_settings in
  let rpc := new_channel sample_settings 7 8 [] in
  connect_span_stream self 7 8 [] =
    (Return (Some rpc, set_rpc rpc self), [EvRpcNew rpc; EvRpcConnect 0]) ∧
  span_stream_enabled (configuration self) = true.
Proof.
  split; [reflexivity|].
  apply (connect_span_stream_returned_channel
           (sample_session ClsSession sample_settings) 7 8 []
           (new_channel sample_settings 7 8 [])
           (set_rpc (new_channel sample_settings 7 8 [])
              (sample_session ClsSession sample_settings))
           [EvRpcNew (new_channel sample_settings 7 8 []); EvRpcConnect 0]
           eq_refl).
Defined.

Lemma send_log_events_after_fault_witness :
  let self := sample_session ClsSession faulty_settings in
  let record : namedtuple := [("message", VScalar (SStr "started"))] in
  let payload : value := VTuple [VDict {["logs" := VTuple (_asdict <$> [record])]}] in
  common_block_try sample_process_user_attribute 128 sample_unicode_lower (configuration self)
    = Raise (KeyError "label_value") ∧
  send_log_events sample_send_outcome sample_process_user_attribute 128 sample_unicode_lower self
    (VScalar SNone) [record] [] =
    (sample_send_outcome [] (_protocol self) "log_event_data" payload None,
     [] ++ [EvSend (protocol_id (_protocol self)) "log_event_data" payload None]).
Proof.
  split; [reflexivity|].
  apply (send_log_events_after_fault sample_send_outcome
           sample_process_user_attribute 128 sample_unicode_lower
           (sample_session ClsSession faulty_settings) (VScalar SNone)
           [[("message", VScalar (SStr "started"))]] []
           (KeyError "label_value")).
  reflexivity.
Defined.
